(** * generate_pitch.py: a shallow embedding and its specification

    The script turns a comparable-companies CSV into a slide deck.  This file
    embeds the logic of [src/generate_pitch.py] (unit scaling, cell
    formatting, the statistical summary, the chart ordering and the order of
    the file writes) and proves the properties its specification states.

    Conventions of the embedding.

    - A Python/numpy float is a value of [float]: NaN, the two infinities, or
      a finite number carried as the rational it denotes.  Arithmetic on
      finite values is exact: the rounding and the finite range of binary64
      are not modelled, and neither is the sign of zero.
    - The pandas and numpy routines the script calls ([dropna], [median],
      [nanpercentile], [sort_values], ...) are modelled from their documented
      behaviour, each under the name it has in the script.
    - Exceptions are values of [error]; files written to disk are recorded in
      an event log that survives an exception. *)

From Stdlib Require Import ZArith QArith Qround Qabs Lqa Lia.
From Stdlib Require Import List String Ascii Bool Permutation Sorted.
From Stdlib Require Import DecimalString.
Import ListNotations.

Local Close Scope Q_scope.
Local Open Scope string_scope.
Local Open Scope list_scope.

(** ** Floating-point values *)

Inductive float : Type :=
| NaN
| PosInf
| NegInf
| Fin (q : Q).

Definition isnan (f : float) : bool :=
  match f with NaN => true | _ => false end.

Definition isinf (f : float) : bool :=
  match f with PosInf | NegInf => true | _ => false end.

Definition isfinite (f : float) : bool :=
  match f with Fin _ => true | _ => false end.

Definition fneg (f : float) : float :=
  match f with
  | NaN => NaN
  | PosInf => NegInf
  | NegInf => PosInf
  | Fin q => Fin (- q)
  end.

(** IEEE addition: opposite infinities cancel to NaN. *)
Definition fadd (a b : float) : float :=
  match a, b with
  | NaN, _ | _, NaN => NaN
  | PosInf, NegInf | NegInf, PosInf => NaN
  | PosInf, _ | _, PosInf => PosInf
  | NegInf, _ | _, NegInf => NegInf
  | Fin x, Fin y => Fin (x + y)
  end.

Definition fsub (a b : float) : float := fadd a (fneg b).

(** Multiplication by a finite factor [t]; an infinity times zero is NaN. *)
Definition fmulq (a : float) (t : Q) : float :=
  match a with
  | NaN => NaN
  | Fin x => Fin (x * t)
  | PosInf =>
      match t ?= 0 with Gt => PosInf | Lt => NegInf | Eq => NaN end
  | NegInf =>
      match t ?= 0 with Gt => NegInf | Lt => PosInf | Eq => NaN end
  end%Q.

(** Division by a positive finite constant (the script only divides by
    [1000.0]; numpy's mean of two values divides by [2]). *)
Definition fdivq (a : float) (d : Q) : float :=
  match a with
  | Fin x => Fin (x / d)
  | other => other
  end.

(** The IEEE comparisons: anything compared with NaN is false. *)
Definition fleb (a b : float) : bool :=
  match a, b with
  | NaN, _ | _, NaN => false
  | NegInf, _ => true
  | _, PosInf => true
  | Fin x, Fin y => Qle_bool x y
  | _, _ => false
  end.

Definition fle (a b : float) : Prop := fleb a b = true.

Definition feqb (a b : float) : bool := fleb a b && fleb b a.

(** The order numpy sorts by: the IEEE order, with NaN after everything. *)
Definition sort_leb (a b : float) : bool :=
  match a, b with
  | _, NaN => true
  | NaN, _ => false
  | _, _ => fleb a b
  end.

(** ** Text *)

Definition str_of_Z (z : Z) : string := NilZero.string_of_int (Z.to_int z).

Definition str_of_nat (n : nat) : string := str_of_Z (Z.of_nat n).

(** [pat in s] of Python, for strings. *)
Fixpoint contains (pat s : string) : bool :=
  String.prefix pat s ||
  match s with
  | EmptyString => false
  | String _ rest => contains pat rest
  end.

(** Rounding to the nearest integer, halves to the even neighbour. *)
Definition round_half_even (q : Q) : Z :=
  let fl := Qfloor q in
  match (q - inject_Z fl ?= 1 # 2)%Q with
  | Lt => fl
  | Gt => (fl + 1)%Z
  | Eq => if Z.even fl then fl else (fl + 1)%Z
  end.

(** [f"{val:.1f}"]: one digit after the point, correctly rounded; the sign is
    that of the value, also when the digits round to zero. *)
Definition fmt1 (val : float) : string :=
  match val with
  | NaN => "nan"
  | PosInf => "inf"
  | NegInf => "-inf"
  | Fin q =>
      let t := round_half_even (Qabs q * 10) in
      (if Qle_bool 0 q then "" else "-")
        ++ str_of_Z (t / 10) ++ "." ++ str_of_Z (t mod 10)
  end.

(** ** Python values and the built-in [float] *)

(** The objects a cell can hold besides a float. *)
Inductive pyobj : Type :=
| PyNone
| PyBool (b : bool)
| PyInt (z : Z)
| PyStr (s : string).

(** A Python value: [isinstance(val, float)] holds exactly for [PyFloat]
    (numpy's float64 scalars are instances of [float]). *)
Inductive pyval : Type :=
| PyFloat (f : float)
| PyObj (o : pyobj).

Definition isinstance_float (val : pyval) : bool :=
  match val with PyFloat _ => true | PyObj _ => false end.

(** [str(val)] on the values that are not floats. *)
Definition py_str (o : pyobj) : string :=
  match o with
  | PyNone => "None"
  | PyBool true => "True"
  | PyBool false => "False"
  | PyInt z => str_of_Z z
  | PyStr s => s
  end.

Module FloatLiteral.
(** [float(s)] for a string [s], ASCII only: surrounding whitespace is
    dropped, underscores may separate digits, then either a signed
    [inf]/[infinity]/[nan] in any case or a signed decimal literal with an
    optional fraction and exponent.  [None] stands for [ValueError]. *)

Definition is_space (c : ascii) : bool :=
  let n := nat_of_ascii c in
  ((9 <=? n) && (n <=? 13) || (28 <=? n) && (n <=? 32))%nat.

Definition is_digit (c : ascii) : bool :=
  let n := nat_of_ascii c in ((48 <=? n) && (n <=? 57))%nat.

Definition digit_val (c : ascii) : Z := Z.of_nat (nat_of_ascii c) - 48.

Definition lower (c : ascii) : ascii :=
  let n := nat_of_ascii c in
  if ((65 <=? n) && (n <=? 90))%nat then ascii_of_nat (n + 32) else c.

Fixpoint lstrip (l : list ascii) : list ascii :=
  match l with
  | c :: rest => if is_space c then lstrip rest else l
  | [] => []
  end.

Definition strip (l : list ascii) : list ascii :=
  rev (lstrip (rev (lstrip l))).

(** An underscore must stand between two digits; they are then removed. *)
Fixpoint drop_underscores (prev : ascii) (l : list ascii)
  : option (list ascii) :=
  match l with
  | [] => if Ascii.eqb prev "_" then None else Some []
  | c :: rest =>
      if Ascii.eqb c "_" then
        if is_digit prev then drop_underscores c rest else None
      else if Ascii.eqb prev "_" && negb (is_digit c) then None
      else option_map (cons c) (drop_underscores c rest)
  end.

(** Leading digits of [l]: their value continuing [acc], how many there
    are, and what follows them. *)
Fixpoint digits (acc : Z) (l : list ascii) : Z * nat * list ascii :=
  match l with
  | c :: rest =>
      if is_digit c then
        let '(v, n, tl) := digits (acc * 10 + digit_val c) rest in
        (v, S n, tl)
      else (acc, O, l)
  | [] => (acc, O, [])
  end.

Definition sign (l : list ascii) : bool * list ascii :=
  match l with
  | "-"%char :: rest => (true, rest)
  | "+"%char :: rest => (false, rest)
  | _ => (false, l)
  end.

Definition pow10 (e : Z) : Q :=
  if (0 <=? e)%Z then inject_Z (10 ^ e) else / inject_Z (10 ^ (- e)).

(** [[eE][+-]?digits+] or nothing, up to the end of the text. *)
Definition exponent (l : list ascii) : option Z :=
  match l with
  | [] => Some 0%Z
  | c :: rest =>
      if Ascii.eqb (lower c) "e" then
        let '(neg, rest') := sign rest in
        match digits 0 rest' with
        | (_, O, _) => None
        | (v, S _, []) => Some (if neg then (- v)%Z else v)
        | (_, S _, _ :: _) => None
        end
      else None
  end.

Definition decimal (l : list ascii) : option Q :=
  let '(ip, ni, after_int) := digits 0 l in
  let '(m, nf, after_frac) :=
    match after_int with
    | "."%char :: rest => digits ip rest
    | _ => (ip, O, after_int)
    end in
  match (ni + nf)%nat with
  | O => None
  | S _ =>
      match exponent after_frac with
      | Some e => Some (inject_Z m * pow10 (e - Z.of_nat nf))%Q
      | None => None
      end
  end.

Definition keyword (l : list ascii) : string :=
  string_of_list_ascii (map lower l).

Definition parse (s : string) : option float :=
  match drop_underscores " " (strip (list_ascii_of_string s)) with
  | None => None
  | Some l =>
      let '(neg, body) := sign l in
      let kw := keyword body in
      if String.eqb kw "inf" || String.eqb kw "infinity" then
        Some (if neg then NegInf else PosInf)
      else if String.eqb kw "nan" then Some NaN
      else
        match decimal body with
        | Some q => Some (Fin (Qred (if neg then - q else q)))
        | None => None
        end
  end.
End FloatLiteral.

(** [float(x)]; [None] stands for the [TypeError] or [ValueError] raised.
    The integers of a frame are 64-bit, within the range of a float. *)
Definition py_float (x : pyval) : option float :=
  match x with
  | PyFloat f => Some f
  | PyObj (PyInt z) => Some (Fin (inject_Z z))
  | PyObj (PyBool b) => Some (Fin (if b then 1 else 0))
  | PyObj (PyStr s) => FloatLiteral.parse s
  | PyObj PyNone => None
  end.

(** ** [scale_to_bn] *)

Definition scale_to_bn (x_m : pyval) : pyval :=
  match py_float x_m with
  | Some f => PyFloat (fdivq f 1000)
  | None => x_m
  end.

(** ** Exceptions *)

Inductive error : Type :=
| KeyError (missing : list string)
| ValueError
| TypeError
| IndexError
| FileNotFoundError.

Inductive result (A : Type) : Type :=
| Ok (a : A)
| Raise (e : error).

Arguments Ok {A} a.
Arguments Raise {A} e.

Definition bind {A B : Type} (r : result A) (k : A -> result B) : result B :=
  match r with
  | Ok a => k a
  | Raise e => Raise e
  end.

Notation "x <- r ;; k" := (bind r (fun x => k))
  (at level 61, r at next level, right associativity).

Fixpoint mapM {A B : Type} (f : A -> result B) (l : list A)
  : result (list B) :=
  match l with
  | [] => Ok []
  | a :: rest => b <- f a ;; bs <- mapM f rest ;; Ok (b :: bs)
  end.

Definition of_option {A : Type} (e : error) (o : option A) : result A :=
  match o with
  | Some a => Ok a
  | None => Raise e
  end.

(** ** numpy: order statistics *)

Fixpoint insert_sorted (x : float) (l : list float) : list float :=
  match l with
  | [] => [x]
  | y :: rest =>
      if sort_leb x y then x :: l else y :: insert_sorted x rest
  end.

(** The array in numpy's sort order (what [partition] exposes at the indices
    the statistics read). *)
Fixpoint np_sort (a : list float) : list float :=
  match a with
  | [] => []
  | x :: rest => insert_sorted x (np_sort rest)
  end.

Definition remove_nan (a : list float) : list float :=
  filter (fun x => negb (isnan x)) a.

(** [np.mean] of two values. *)
Definition mean2 (a b : float) : float := fdivq (fadd a b) 2.

(** [np.median]: the middle value, or the mean of the two middle values; a NaN
    in the array makes the result NaN. *)
Definition np_median (a : list float) : float :=
  let n := List.length a in
  let part := np_sort a in
  if existsb isnan a then NaN
  else if Nat.even n then mean2 (nth (n / 2 - 1) part NaN) (nth (n / 2) part NaN)
  else nth (n / 2) part NaN.

Definition np_nanmedian (a : list float) : float :=
  match remove_nan a with
  | [] => NaN
  | v => np_median v
  end.

(** numpy's [_lerp]. *)
Definition lerp (a b : float) (t : Q) : float :=
  let diff_b_a := fsub b a in
  if Qle_bool (1 # 2) t then fsub b (fmulq diff_b_a (1 - t))
  else fadd a (fmulq diff_b_a t).

(** [np.percentile] with the default method ([linear]), for [0 <= q <= 100]:
    the virtual index [(n - 1) * q / 100], its two neighbours in the sorted
    array, and the interpolation between them.  At or past the last index
    both neighbours are the last value. *)
Definition np_percentile (a : list float) (q : Q) : float :=
  let n := List.length a in
  let part := np_sort a in
  let virtual_index := ((inject_Z (Z.of_nat n) - 1) * (q / 100))%Q in
  let above := Qle_bool (inject_Z (Z.of_nat n) - 1) virtual_index in
  let lo := Z.to_nat (Qfloor virtual_index) in
  let previous := if above then last part NaN else nth lo part NaN in
  let next := if above then last part NaN else nth (S lo) part NaN in
  let gamma :=
    (if above then virtual_index + 1
     else virtual_index - inject_Z (Qfloor virtual_index))%Q in
  lerp previous next gamma.

Definition np_nanpercentile (a : list float) (q : Q) : float :=
  match remove_nan a with
  | [] => NaN
  | v => np_percentile v q
  end.

(** ** pandas: series *)

(** A column of a frame: one Python value per row. *)
Definition series := list pyval.

(** [s.astype(float)]: every cell through [float]; a missing object cell
    ([None]) becomes NaN, text that is no float literal raises. *)
Definition astype_float (s : series) : result (list float) :=
  mapM (fun v =>
          match v with
          | PyObj PyNone => Ok NaN
          | _ => of_option ValueError (py_float v)
          end) s.

(** [s.replace([np.inf, -np.inf], np.nan)]. *)
Definition replace_inf_nan (s : list float) : list float :=
  map (fun x => if isinf x then NaN else x) s.

(** [s.dropna()]. *)
Definition dropna (s : list float) : list float := remove_nan s.

(** The values of a numeric column (dtype [int64], [float64] or [bool]); a
    reduction or a sort over a column that holds text raises. *)
Definition numeric_values (s : series) : result (list float) :=
  mapM (fun v =>
          match v with
          | PyFloat f => Ok f
          | PyObj (PyInt z) => Ok (Fin (inject_Z z))
          | PyObj (PyBool b) => Ok (Fin (if b then 1 else 0))
          | PyObj (PyStr _) | PyObj PyNone => Raise TypeError
          end) s.

(** [s.median()]: [skipna=True] is the default, so missing values are left
    out; infinities are ordinary values here. *)
Definition median (s : series) : result float :=
  v <- numeric_values s ;; Ok (np_nanmedian v).

(** ** pandas: frames *)

(** A frame: the number of rows and the named columns, in order. *)
Record DataFrame : Type := {
  df_len : nat;
  df_columns : list (string * series)
}.

(** Every column has one cell per row. *)
Definition well_formed (df : DataFrame) : Prop :=
  Forall (fun c => List.length (snd c) = df_len df) (df_columns df).

Definition column_names (df : DataFrame) : list string :=
  map fst (df_columns df).

Fixpoint lookup (name : string) (cols : list (string * series))
  : option series :=
  match cols with
  | [] => None
  | (n, s) :: rest => if String.eqb n name then Some s else lookup name rest
  end.

Definition has_column (df : DataFrame) (name : string) : bool :=
  match lookup name (df_columns df) with Some _ => true | None => false end.

(** [df[name]]. *)
Definition getitem (df : DataFrame) (name : string) : result series :=
  of_option (KeyError [name]) (lookup name (df_columns df)).

Fixpoint replace_column (name : string) (s : series)
  (cols : list (string * series)) : list (string * series) :=
  match cols with
  | [] => [(name, s)]
  | (n, old) :: rest =>
      if String.eqb n name then (n, s) :: rest
      else (n, old) :: replace_column name s rest
  end.

(** [df[name] = s]: the column is replaced where it stands, or appended. *)
Definition setitem (df : DataFrame) (name : string) (s : series)
  : DataFrame :=
  {| df_len := df_len df;
     df_columns := replace_column name s (df_columns df) |}.

(** [df[names]]: the listed columns in the listed order; the names that are
    absent are reported together. *)
Definition select (df : DataFrame) (names : list string)
  : result DataFrame :=
  match filter (fun n => negb (has_column df n)) names with
  | [] =>
      cols <- mapM (fun n => s <- getitem df n ;; Ok (n, s)) names ;;
      Ok {| df_len := df_len df; df_columns := cols |}
  | missing => Raise (KeyError missing)
  end.

(** [df.rename(columns={old: new, ...})]. *)
Definition rename (df : DataFrame) (mapping : list (string * string))
  : DataFrame :=
  {| df_len := df_len df;
     df_columns :=
       map (fun c =>
              match find (fun m => String.eqb (fst m) (fst c)) mapping with
              | Some m => (snd m, snd c)
              | None => c
              end) (df_columns df) |}.

(** [df.iat[i, j]]. *)
Definition iat (df : DataFrame) (i j : nat) : result pyval :=
  match nth_error (df_columns df) j with
  | Some c => of_option IndexError (nth_error (snd c) i)
  | None => Raise IndexError
  end.

(** [pd.DataFrame(rows, columns=names)]. *)
Definition frame_of_rows (rows : list (list pyval)) (names : list string)
  : DataFrame :=
  {| df_len := List.length rows;
     df_columns :=
       map (fun j => (nth j names "", map (fun r => nth j r (PyFloat NaN)) rows))
           (seq 0 (List.length names)) |}.

(** Rows [indexer] of a series, in that order. *)
Definition take (s : series) (indexer : list nat) : result series :=
  mapM (fun i => of_option IndexError (nth_error s i)) indexer.

(** ** Slides *)

Record table : Type := {
  tbl_rows : nat;
  tbl_cols : nat;
  tbl_header : list string;
  tbl_body : list (list string)
}.

Inductive slide : Type :=
| TitleSlide (title subtitle : string)
| BulletsSlide (title : string) (bullets : list string)
| TableSlide (title : string) (t : table)
| PictureSlide (title img_path : string) (caption : option string).

Definition add_title_slide (title subtitle : string) : slide :=
  TitleSlide title subtitle.

Definition add_bullets_slide (title : string) (bullets : list string)
  : slide :=
  BulletsSlide title bullets.

Definition add_picture (title img_path : string) (caption : option string)
  : slide :=
  PictureSlide title img_path caption.

(** The text [add_table] puts in a body cell of column [column]. *)
Definition cell_text (column : string) (val : pyval) : string :=
  match val with
  | PyFloat f =>
      if contains "Margin" column || contains "Growth" column then
        fmt1 f ++ "%"
      else if contains "EV/EBITDA" column || contains "EV_EBITDA" column
              || contains "P/E" column || String.eqb column "PE" then
        fmt1 f ++ "x"
      else fmt1 f
  | PyObj o => py_str o
  end.

Definition add_table (title : string) (df : DataFrame) : result slide :=
  let rows := df_len df in
  let cols := List.length (df_columns df) in
  let header := column_names df in
  body <- mapM (fun i =>
                  mapM (fun j =>
                          val <- iat df i j ;;
                          Ok (cell_text (nth j header "") val))
                       (seq 0 cols))
               (seq 0 rows) ;;
  Ok (TableSlide title
        {| tbl_rows := S rows; tbl_cols := cols;
           tbl_header := header; tbl_body := body |}).

(** ** [add_val_summary] *)

(** [s.astype(float).replace([np.inf, -np.inf], np.nan).dropna()]. *)
Definition valid_values (s : series) : result (list float) :=
  v <- astype_float s ;; Ok (dropna (replace_inf_nan v)).

(** Median, 25th and 75th percentile of a filtered series. *)
Definition summary_stats (s : list float) : float * float * float :=
  match List.length s with
  | O => (NaN, NaN, NaN)
  | S _ => (np_nanmedian s, np_nanpercentile s 25, np_nanpercentile s 75)
  end.

Definition summary_row (name : string) (s : list float) : list pyval :=
  let '(med, p25, p75) := summary_stats s in
  [PyObj (PyStr name); PyFloat med; PyFloat p25; PyFloat p75].

Definition add_val_summary (df : DataFrame) : result slide :=
  ev <- getitem df "EV_EBITDA" ;;
  ev_s <- valid_values ev ;;
  pe <- getitem df "PE" ;;
  pe_s <- valid_values pe ;;
  let rows := [summary_row "EV/EBITDA" ev_s; summary_row "P/E" pe_s] in
  let df_sum :=
    frame_of_rows rows ["Metric"; "Median (x)"; "25th (x)"; "75th (x)"] in
  add_table "Valuation Summary (EV/EBITDA & P/E)" df_sum.

(** ** Paths *)

Module Path.
(** [os.path] on POSIX. *)

Definition is_sep (c : ascii) : bool := Ascii.eqb c "/".

(** [p[:p.rfind("/") + 1]]: the path up to and with its last slash. *)
Fixpoint head (p : list ascii) : list ascii :=
  match p with
  | [] => []
  | c :: rest =>
      match head rest with
      | [] => if is_sep c then [c] else []
      | h => c :: h
      end
  end.

Fixpoint lstrip_sep (p : list ascii) : list ascii :=
  match p with
  | c :: rest => if is_sep c then lstrip_sep rest else p
  | [] => []
  end.

(** [os.path.dirname]: the head, its trailing slashes dropped unless it
    consists of slashes only. *)
Definition dirname (p : string) : string :=
  let h := head (list_ascii_of_string p) in
  string_of_list_ascii
    (if forallb is_sep h then h else rev (lstrip_sep (rev h))).

(** [os.path.join(a, b)]. *)
Definition join (a b : string) : string :=
  match b with
  | String c _ =>
      if is_sep c then b
      else
        match rev (list_ascii_of_string a) with
        | [] => b
        | l :: _ => if is_sep l then a ++ b else a ++ "/" ++ b
        end
  | EmptyString =>
      match rev (list_ascii_of_string a) with
      | [] => b
      | l :: _ => if is_sep l then a else a ++ "/"
      end
  end.
End Path.

(** ** Files written by a run *)

Inductive artifact : Type :=
| BarChart (categories heights : series)
| ScatterChart (xs ys : series)
| Deck (slides : list slide).

Inductive event : Type :=
| Makedirs (name : string)
| Saved (file : string) (a : artifact).

(** A computation that may write files and may raise: the log of what was
    written so far is threaded through, and is kept when an exception ends
    the run. *)
Definition IO (A : Type) : Type := list event -> result A * list event.

Definition io_ret {A : Type} (a : A) : IO A := fun log => (Ok a, log).

Definition io_bind {A B : Type} (m : IO A) (k : A -> IO B) : IO B :=
  fun log =>
    match m log with
    | (Ok a, log') => k a log'
    | (Raise e, log') => (Raise e, log')
    end.

Definition lift {A : Type} (r : result A) : IO A := fun log => (r, log).

Definition emit (e : event) : IO unit := fun log => (Ok tt, log ++ [e]).

(** [os.makedirs(name, exist_ok=True)]: the empty name is no directory.
    Other failures of the file system are outside the model. *)
Definition makedirs (name : string) : IO unit :=
  if String.eqb name "" then lift (Raise FileNotFoundError)
  else emit (Makedirs name).

Notation "x <~ m ;; k" := (io_bind m (fun x => k))
  (at level 61, m at next level, right associativity).
Notation "m ;;; k" := (io_bind m (fun _ => k))
  (at level 61, right associativity).

(** ** Charts *)

Definition build_bar_chart_ev_ebitda (df : DataFrame) (out_path : string)
  : IO unit :=
  company <~ lift (getitem df "Company") ;;
  ev_ebitda <~ lift (getitem df "EV_EBITDA") ;;
  emit (Saved out_path (BarChart company ev_ebitda)).

Definition build_scatter_pe_growth (df : DataFrame) (out_path : string)
  : IO unit :=
  growth <~ lift (getitem df "Rev_Growth_%") ;;
  pe <~ lift (getitem df "PE") ;;
  emit (Saved out_path (ScatterChart growth pe)).

(** ** The pipeline *)

Definition cols : list string :=
  ["Company"; "Ticker"; "Sector"; "EV_USD_bn"; "EBITDA_USD_bn"; "EV_EBITDA";
   "PE"; "Rev_Growth_%"; "EBITDA_Margin_%"].

(** Lines 114-118 of [main]: the frame the comparables table shows. *)
Definition df_tbl_of (df : DataFrame) : result DataFrame :=
  let df_disp := df in
  ev_m <- getitem df_disp "EV_USD_m" ;;
  let df_disp := setitem df_disp "EV_USD_bn" (map scale_to_bn ev_m) in
  ebitda_m <- getitem df_disp "EBITDA_USD_m" ;;
  let df_disp := setitem df_disp "EBITDA_USD_bn" (map scale_to_bn ebitda_m) in
  sel <- select df_disp cols ;;
  Ok (rename sel [("EV_USD_bn", "EV (USD bn)");
                  ("EBITDA_USD_bn", "EBITDA (USD bn)")]).

(** The first takeaway of the deck. *)
Definition takeaway (df : DataFrame) : result string :=
  ev <- getitem df "EV_EBITDA" ;;
  ev_med <- median ev ;;
  pe <- getitem df "PE" ;;
  pe_med <- median pe ;;
  Ok ("Median EV/EBITDA ≈ " ++ fmt1 ev_med ++ "x; P/E ≈ "
        ++ fmt1 pe_med ++ "x")%string.

Section Pipeline.

(** [argsort(kind="quicksort")] of numpy: [sort_values] is called without a
    [kind], and "quicksort" is its default.  The routine returns the
    positions of the array in ascending order of the values; of the kinds
    pandas offers only "mergesort" and "stable" also keep equal values in
    their order, so which of two equal values comes first is left to the
    routine, and the routine is a parameter here. *)
Variable argsort : list float -> list nat.

(** pandas' [nargsort] with [ascending=False] and [na_position="last"]:
    the values that are not NaN are reversed, sorted ascending, and the
    result reversed again; the positions of the NaN follow. *)
Definition nargsort_desc (items : list float) : list nat :=
  let idx := seq 0 (List.length items) in
  let mask := fun i => isnan (nth i items NaN) in
  let non_nan_idx := rev (filter (fun i => negb (mask i)) idx) in
  let non_nans := map (fun i => nth i items NaN) non_nan_idx in
  let indexer := rev (map (fun k => nth k non_nan_idx O) (argsort non_nans)) in
  let nan_idx := filter mask idx in
  indexer ++ nan_idx.

(** [df.sort_values(by, ascending=False).reset_index(drop=True)]. *)
Definition sort_values_desc (df : DataFrame) (by_ : string)
  : result DataFrame :=
  k <- getitem df by_ ;;
  items <- numeric_values k ;;
  let indexer := nargsort_desc items in
  sorted <- mapM (fun c => s <- take (snd c) indexer ;; Ok (fst c, s))
                 (df_columns df) ;;
  Ok {| df_len := List.length indexer; df_columns := sorted |}.

Definition main (df : DataFrame) (out title : string) : IO unit :=
  df_tbl <~ lift (df_tbl_of df) ;;
  df_bar <~ lift (sort_values_desc df "EV_EBITDA") ;;
  makedirs (Path.dirname out) ;;;
  let chart1 := Path.join (Path.dirname out) "ev_ebitda_chart.png" in
  let chart2 := Path.join (Path.dirname out) "pe_vs_growth.png" in
  build_bar_chart_ev_ebitda df_bar chart1 ;;;
  build_scatter_pe_growth df chart2 ;;;
  let s1 := add_title_slide title "Auto-generated from comps CSV" in
  line1 <~ lift (takeaway df) ;;
  let s2 := add_bullets_slide "Key Takeaways"
    [line1;
     "Prefer medians & IQR (25–75th) over means due to outliers";
     "Growth/margins cluster in Software/Semis within this sample"] in
  s3 <~ lift (add_table "Comparable Companies Table" df_tbl) ;;
  let s4 := add_picture "EV/EBITDA – Distribution" chart1 None in
  let s5 := add_picture "P/E vs Revenue Growth" chart2
    (Some "Illustrative only; ensure sector comparability.") in
  s6 <~ lift (add_val_summary df) ;;
  let s7 := add_bullets_slide "Methodology & Sources"
    [("Universe: " ++ str_of_nat (df_len df)
        ++ " listed software comps; currency: USD; base: TTM.")%string;
     "Valuation: EV/EBITDA & P/E; medians and interquartile range (25–75th).";
     "Outliers reviewed; results illustrative. Sources: public filings & aggregators."] in
  emit (Saved out (Deck [s1; s2; s3; s4; s5; s6; s7])).

End Pipeline.

(** ** Sorting routines that meet numpy's contract *)

(** What [argsort] promises for an array without NaN: a permutation of the
    positions that lists the values in ascending order. *)
Definition sorts_ascending (argsort : list float -> list nat) : Prop :=
  forall xs : list float,
    Forall (fun x => isnan x = false) xs ->
    Permutation (argsort xs) (seq 0 (List.length xs)) /\
    StronglySorted (fun a b => fle a b)
      (map (fun i => nth i xs NaN) (argsort xs)).

Fixpoint insert_index (before : float -> float -> bool) (xs : list float)
  (i : nat) (l : list nat) : list nat :=
  match l with
  | [] => [i]
  | j :: rest =>
      if before (nth i xs NaN) (nth j xs NaN) then i :: l
      else j :: insert_index before xs i rest
  end.

(** Insertion sort on positions; [before a b] decides whether a value [a]
    goes in front of a value [b] met later in the array. *)
Definition argsort_with (before : float -> float -> bool) (xs : list float)
  : list nat :=
  fold_right (insert_index before xs) [] (seq 0 (List.length xs)).

(** Equal values keep their order. *)
Definition argsort_stable : list float -> list nat :=
  argsort_with fleb.


(** A list of values in descending order with the NaN at the end. *)
Definition descending_nan_last (vs : list float) : Prop :=
  exists d nans : list float,
    vs = d ++ nans /\
    Forall (fun x => isnan x = false) d /\
    Forall (fun x => isnan x = true) nans /\
    StronglySorted (fun a b => fle b a) d.

(** ** The specification's notions *)

(** Equality of floats as values: the same special value, or equal finite
    numbers. *)
Definition float_equiv (a b : float) : Prop :=
  match a, b with
  | NaN, NaN | PosInf, PosInf | NegInf, NegInf => True
  | Fin x, Fin y => (x == y)%Q
  | _, _ => False
  end.





(** The format categories of the specification. *)
Inductive category : Type :=
| Percentage
| Multiple
| PlainDecimal.

(** The specification's name-matching rules, in its match order:
    percentage first, then multiple, then the default. *)
Definition format_category (name : string) : category :=
  if contains "Margin" name || contains "Growth" name then Percentage
  else if contains "EV/EBITDA" name || contains "EV_EBITDA" name
          || contains "P/E" name || String.eqb name "PE" then Multiple
  else PlainDecimal.

Definition render (c : category) (f : float) : string :=
  match c with
  | Percentage => fmt1 f ++ "%"
  | Multiple => fmt1 f ++ "x"
  | PlainDecimal => fmt1 f
  end.

(** The specification's reading of the takeaway: the median of the raw
    column over all rows, nothing left out, so that a missing value among
    them leaves no median to report. *)
Definition raw_median (s : list float) : float := np_median s.

(** The columns a run reads. *)
Definition required_columns : list string :=
  ["Company"; "Ticker"; "Sector"; "EV_USD_m"; "EBITDA_USD_m"; "EV_EBITDA";
   "PE"; "Rev_Growth_%"; "EBITDA_Margin_%"].

(** ** Sample data *)

Definition float_cell (q : Q) : pyval := PyFloat (Fin q).
Definition int_cell (z : Z) : pyval := PyObj (PyInt z).
Definition str_cell (s : string) : pyval := PyObj (PyStr s).

(** The two-company data set of the specification's scenarios. *)
Definition two_rows : DataFrame :=
  {| df_len := 2;
     df_columns :=
       [("Company", [str_cell "A"; str_cell "B"]);
        ("Ticker", [str_cell "AAA"; str_cell "BBB"]);
        ("Sector", [str_cell "Software"; str_cell "Software"]);
        ("EV_USD_m", [int_cell 5000; int_cell 2000]);
        ("EBITDA_USD_m", [int_cell 500; int_cell 100]);
        ("EV_EBITDA", [float_cell 10; float_cell 20]);
        ("PE", [float_cell 20; float_cell 40]);
        ("Rev_Growth_%", [float_cell 15; float_cell 5]);
        ("EBITDA_Margin_%", [float_cell 30; float_cell 10])] |}.

(** The same data without its [PE] column. *)
Definition two_rows_without_pe : DataFrame :=
  {| df_len := 2;
     df_columns :=
       filter (fun c => negb (String.eqb (fst c) "PE")) (df_columns two_rows) |}.

(** Two companies with the same multiple. *)
Definition tied_rows : DataFrame :=
  setitem two_rows "EV_EBITDA" [float_cell 10; float_cell 10].

(** Three companies, the second with no multiple on record. *)
Definition three_rows_one_missing : DataFrame :=
  {| df_len := 3;
     df_columns :=
       [("Company", [str_cell "A"; str_cell "B"; str_cell "C"]);
        ("Ticker", [str_cell "AAA"; str_cell "BBB"; str_cell "CCC"]);
        ("Sector", [str_cell "Software"; str_cell "Software"; str_cell "Semis"]);
        ("EV_USD_m", [int_cell 5000; str_cell "N/A"; int_cell 2000]);
        ("EBITDA_USD_m", [int_cell 500; int_cell 100; int_cell 200]);
        ("EV_EBITDA", [float_cell 10; PyFloat NaN; float_cell 20]);
        ("PE", [float_cell 20; PyFloat NaN; float_cell 40]);
        ("Rev_Growth_%", [float_cell 15; float_cell 5; float_cell 8]);
        ("EBITDA_Margin_%", [float_cell 30; float_cell 10; float_cell 12])] |}.

(** A column whose values are all missing or infinite. *)
Definition no_valid_rows : DataFrame :=
  setitem (setitem two_rows "EV_EBITDA" [PyFloat NaN; PyFloat PosInf])
    "PE" [PyFloat NegInf; PyFloat NaN].

(** ** Numeric columns and further sample data *)




(** The two-company data set with no multiple on record. *)
Definition two_rows_no_multiples : DataFrame :=
  setitem (setitem two_rows "EV_EBITDA" [PyFloat NaN; PyFloat NaN])
    "PE" [PyFloat NaN; PyFloat NaN].

(** The two-company data set with its columns in another order, a column
    the run does not read, and an [EV_USD_bn] column of its own. *)
Definition two_rows_reordered : DataFrame :=
  {| df_len := 2;
     df_columns :=
       [("PE", [float_cell 20; float_cell 40]);
        ("EV_USD_bn", [str_cell "five"; str_cell "two"]);
        ("Company", [str_cell "A"; str_cell "B"]);
        ("Country", [str_cell "US"; str_cell "DE"]);
        ("EBITDA_Margin_%", [float_cell 30; float_cell 10]);
        ("Ticker", [str_cell "AAA"; str_cell "BBB"]);
        ("EV_EBITDA", [float_cell 10; float_cell 20]);
        ("Sector", [str_cell "Software"; str_cell "Software"]);
        ("EBITDA_USD_m", [int_cell 500; int_cell 100]);
        ("Rev_Growth_%", [float_cell 15; float_cell 5]);
        ("EV_USD_m", [int_cell 5000; int_cell 2000])] |}.

(** The comparables table of the two-company data set. *)
Definition two_rows_table : table :=
  {| tbl_rows := 3; tbl_cols := 9;
     tbl_header :=
       ["Company"; "Ticker"; "Sector"; "EV (USD bn)"; "EBITDA (USD bn)";
        "EV_EBITDA"; "PE"; "Rev_Growth_%"; "EBITDA_Margin_%"];
     tbl_body :=
       [["A"; "AAA"; "Software"; "5.0"; "0.5"; "10.0x"; "20.0x"; "15.0%";
         "30.0%"];
        ["B"; "BBB"; "Software"; "2.0"; "0.1"; "20.0x"; "40.0x"; "5.0%";
         "10.0%"]] |}.

(** * Properties *)

(** ** Monadic traversals *)

Lemma mapM_length {A B : Type} (f : A -> result B) (l : list A) (r : list B) :
  mapM f l = Ok r -> List.length r = List.length l.
Proof.
  revert r; induction l as [|a l IH]; intros r H; simpl in H.
  - now inversion H.
  - destruct (f a) as [b|e]; simpl in H; [|discriminate].
    destruct (mapM f l) as [bs|e]; simpl in H; [|discriminate].
    inversion H; subst; simpl; f_equal; now apply IH.
Qed.


Lemma mapM_total {A B : Type} (f : A -> result B) (g : A -> B) (l : list A) :
  (forall a, In a l -> f a = Ok (g a)) -> mapM f l = Ok (map g l).
Proof.
  induction l as [|x l IH]; intros H; simpl; [reflexivity|].
  rewrite (H x (or_introl eq_refl)); simpl.
  rewrite IH; [reflexivity|]; intros; apply H; now right.
Qed.

Lemma mapM_ok_map {A B : Type} (f : A -> result B) (g : A -> B) (l : list A)
  (r : list B) :
  mapM f l = Ok r -> (forall a b, In a l -> f a = Ok b -> b = g a) ->
  r = map g l.
Proof.
  revert r; induction l as [|x l IH]; intros r H Hg; simpl in H.
  - now inversion H.
  - destruct (f x) as [b|e] eqn:Hx; simpl in H; [|discriminate].
    destruct (mapM f l) as [bs|e] eqn:Hl; simpl in H; [|discriminate].
    inversion H; subst; simpl; f_equal.
    + apply Hg; [now left|assumption].
    + apply IH; [reflexivity|]; intros; eapply Hg; eauto; now right.
Qed.

(** ** The unit scaler *)



(** Five thousand millions are five billions. *)
Example scale_to_bn_5000 :
  exists q : Q, scale_to_bn (PyObj (PyInt 5000)) = PyFloat (Fin q) /\ (q == 5)%Q.
Proof. eexists; split; [reflexivity|reflexivity]. Qed.

(** Text that spells a number is converted as well. *)
Example scale_to_bn_numeric_text :
  scale_to_bn (PyObj (PyStr "2500")) = PyFloat (Fin (2500 / 1000)).
Proof. reflexivity. Qed.

Lemma mapM_nth_error_inv {A B : Type} (f : A -> result B) (l : list A)
  (r : list B) :
  mapM f l = Ok r ->
  forall k b, nth_error r k = Some b ->
    exists a, nth_error l k = Some a /\ f a = Ok b.
Proof.
  revert r; induction l as [|x l IH]; intros r H k b Hk; simpl in H.
  - inversion H; subst; destruct k; discriminate.
  - destruct (f x) as [y|e] eqn:Hx; simpl in H; [|discriminate].
    destruct (mapM f l) as [bs|e] eqn:Hl; simpl in H; [|discriminate].
    inversion H; subst; clear H.
    destruct k as [|k]; simpl in *.
    + inversion Hk; subst; eauto.
    + eapply IH; eauto.
Qed.

Lemma mapM_succeeds {A B : Type} (f : A -> result B) (l : list A) :
  (forall a, In a l -> exists b, f a = Ok b) -> exists r, mapM f l = Ok r.
Proof.
  induction l as [|x l IH]; intros H; simpl; [eauto|].
  destruct (H x (or_introl eq_refl)) as [b Hb]; rewrite Hb; simpl.
  destruct IH as [r Hr]; [intros; apply H; now right|].
  rewrite Hr; simpl; eauto.
Qed.

Lemma nth_error_seq (start len k : nat) :
  k < len -> nth_error (seq start len) k = Some (start + k).
Proof.
  revert start k; induction len as [|len IH]; intros start k H; [lia|].
  destruct k as [|k]; simpl; [f_equal; lia|].
  rewrite IH by lia; f_equal; lia.
Qed.

Lemma nth_error_seq_inv (start len k a : nat) :
  nth_error (seq start len) k = Some a -> a = start + k /\ k < len.
Proof.
  intros H.
  assert (Hk : k < len).
  { rewrite <- (length_seq len start); apply nth_error_Some; congruence. }
  rewrite nth_error_seq in H by assumption; inversion H; auto.
Qed.

(** ** Tables *)

(** What [add_table] builds: one header row with the column names and, for
    every row of the frame, one row of formatted cells. *)
Lemma add_table_cells (title : string) (df : DataFrame) (s : slide) :
  add_table title df = Ok s ->
  exists t : table,
    s = TableSlide title t /\
    tbl_rows t = S (df_len df) /\
    tbl_cols t = List.length (df_columns df) /\
    tbl_header t = column_names df /\
    List.length (tbl_body t) = df_len df /\
    forall i row, nth_error (tbl_body t) i = Some row ->
      List.length row = List.length (df_columns df) /\
      forall j txt, nth_error row j = Some txt ->
        exists val, iat df i j = Ok val /\
                    txt = cell_text (nth j (column_names df) "") val.
Proof.
  unfold add_table; intros H.
  destruct (mapM _ (seq 0 (df_len df))) as [body|e] eqn:Hbody;
    simpl in H; [|discriminate].
  inversion H; subst; clear H.
  eexists; repeat split; simpl.
  - apply mapM_length in Hbody; now rewrite Hbody, length_seq.
  - destruct (mapM_nth_error_inv _ _ _ Hbody _ _ H) as (a & Ha & Hrow).
    apply mapM_length in Hrow; now rewrite Hrow, length_seq.
  - intros j txt Hj.
    destruct (mapM_nth_error_inv _ _ _ Hbody _ _ H) as (a & Ha & Hrow).
    apply nth_error_seq_inv in Ha; destruct Ha as [-> _]; simpl in Hrow.
    destruct (mapM_nth_error_inv _ _ _ Hrow _ _ Hj) as (b & Hb & Hcell).
    apply nth_error_seq_inv in Hb; destruct Hb as [-> _]; simpl in Hcell.
    destruct (iat df i j) as [val|e]; simpl in Hcell; [|discriminate].
    inversion Hcell; eauto.
Qed.

Lemma iat_well_formed (df : DataFrame) (i j : nat) :
  well_formed df -> i < df_len df -> j < List.length (df_columns df) ->
  exists val, iat df i j = Ok val.
Proof.
  intros Hwf Hi Hj; unfold iat.
  destruct (nth_error (df_columns df) j) as [c|] eqn:Hc.
  - assert (Hlen : List.length (snd c) = df_len df).
    { unfold well_formed in Hwf; rewrite Forall_forall in Hwf.
      apply Hwf; eapply nth_error_In; eauto. }
    destruct (nth_error (snd c) i) as [v|] eqn:Hv; simpl; [eauto|].
    apply nth_error_None in Hv; lia.
  - apply nth_error_None in Hc; lia.
Qed.

(** On a well-formed frame [add_table] does not raise. *)
Lemma add_table_succeeds (title : string) (df : DataFrame) :
  well_formed df -> exists t, add_table title df = Ok (TableSlide title t).
Proof.
  intros Hwf; unfold add_table.
  destruct (mapM_succeeds
              (fun i => mapM (fun j => val <- iat df i j ;;
                                       Ok (cell_text (nth j (column_names df) "") val))
                             (seq 0 (List.length (df_columns df))))
              (seq 0 (df_len df))) as [body Hbody].
  - intros i Hi; apply in_seq in Hi.
    apply mapM_succeeds; intros j Hj; apply in_seq in Hj.
    destruct (iat_well_formed df i j Hwf) as [v Hv]; [lia|lia|].
    rewrite Hv; simpl; eauto.
  - rewrite Hbody; simpl; eauto.
Qed.

(** C10.  A cell whose value is not a float is shown as [str] gives it,
    whatever the category of its column: the formats apply to floats only. *)
Theorem non_float_cells_are_verbatim :
  (forall (column : string) (val : pyval),
      isinstance_float val = false ->
      exists o : pyobj, val = PyObj o /\ cell_text column val = py_str o) /\
  (forall (title : string) (df : DataFrame) (t : table) (i j : nat)
          (o : pyobj),
      add_table title df = Ok (TableSlide title t) ->
      i < df_len df ->
      iat df i j = Ok (PyObj o) ->
      nth_error (nth i (tbl_body t) []) j = Some (py_str o)) /\
  cell_text "PE" (PyObj (PyInt 20)) = "20" /\
  cell_text "EBITDA_Margin_%" (PyObj (PyInt 30)) = "30" /\
  cell_text "EV (USD bn)" (PyObj (PyStr "N/A")) = "N/A" /\
  cell_text "PE" (PyFloat (Fin 20)) = "20.0x".
Proof.
  split; [|split; [|repeat split]].
  - intros column [f|o] H; [discriminate|]; eauto.
  - intros title df t i j o Htab Hi Hval.
    destruct (add_table_cells _ _ _ Htab)
      as (t' & Heq & _ & _ & _ & Hlen & Hcells).
    inversion Heq; subst t'; clear Heq.
    destruct (nth_error (tbl_body t) i) as [row|] eqn:Hrow.
    2:{ apply nth_error_None in Hrow; lia. }
    rewrite (nth_error_nth _ _ [] Hrow).
    destruct (Hcells _ _ Hrow) as [Hwidth Hcell].
    assert (Hj : j < List.length (df_columns df)).
    { unfold iat in Hval.
      destruct (nth_error (df_columns df) j) eqn:Hc; [|discriminate].
      apply nth_error_Some; congruence. }
    destruct (nth_error row j) as [txt|] eqn:Htxt.
    2:{ apply nth_error_None in Htxt; lia. }
    destruct (Hcell _ _ Htxt) as (val & Hv & ->).
    rewrite Hval in Hv; inversion Hv; subst; reflexivity.
Qed.

Lemma non_float_cells_are_verbatim_witness :
  isinstance_float (PyObj (PyStr "N/A")) = false /\
  exists o : pyobj,
    PyObj (PyStr "N/A") = PyObj o /\
    cell_text "EV (USD bn)" (PyObj (PyStr "N/A")) = py_str o.
Proof.
  split; [reflexivity|].
  apply (proj1 non_float_cells_are_verbatim); reflexivity.
Defined.

(** ** Format categories *)

Lemma append_right_injective (s a b : string) :
  (s ++ a = s ++ b)%string -> a = b.
Proof.
  induction s as [|c s IH]; simpl; intros H; [assumption|].
  inversion H; auto.
Qed.

Lemma render_injective (f : float) (c1 c2 : category) :
  render c1 f = render c2 f -> c1 = c2.
Proof.
  assert (Hnil : forall s, (s ++ "")%string = s).
  { induction s as [|c s IH]; simpl; congruence. }
  destruct c1, c2; simpl; intros H; try reflexivity; exfalso;
    try (apply append_right_injective in H; discriminate);
    try (rewrite <- (Hnil (fmt1 f)) in H at 1;
         apply append_right_injective in H; discriminate);
    try (rewrite <- (Hnil (fmt1 f)) in H at 2;
         apply append_right_injective in H; discriminate).
Qed.

(** C5.  The format of a float cell is decided by the column name alone,
    through the rules in their fixed order: "Margin" or "Growth" in the name
    gives a percentage; otherwise "EV/EBITDA", "EV_EBITDA" or "P/E" in the
    name, or the name "PE", gives a multiple; otherwise the plain decimal.
    The text of a cell fits one category only. *)
Theorem format_category_by_name :
  (forall (name : string) (f : float),
      cell_text name (PyFloat f) = render (format_category name) f) /\
  (forall name : string,
      contains "Margin" name || contains "Growth" name = true ->
      format_category name = Percentage) /\
  (forall name : string,
      contains "Margin" name || contains "Growth" name = false ->
      contains "EV/EBITDA" name || contains "EV_EBITDA" name
        || contains "P/E" name || String.eqb name "PE" = true ->
      format_category name = Multiple) /\
  (forall name : string,
      contains "Margin" name || contains "Growth" name = false ->
      contains "EV/EBITDA" name || contains "EV_EBITDA" name
        || contains "P/E" name || String.eqb name "PE" = false ->
      format_category name = PlainDecimal) /\
  (forall (name : string) (f : float) (c : category),
      cell_text name (PyFloat f) = render c f -> c = format_category name).
Proof.
  repeat split.
  - intros name f; unfold cell_text, format_category, render.
    destruct (contains "Margin" name || contains "Growth" name);
      [reflexivity|].
    destruct (contains "EV/EBITDA" name || contains "EV_EBITDA" name
              || contains "P/E" name || String.eqb name "PE"); reflexivity.
  - intros name H; unfold format_category; now rewrite H.
  - intros name H1 H2; unfold format_category; now rewrite H1, H2.
  - intros name H1 H2; unfold format_category; now rewrite H1, H2.
  - intros name f c H.
    apply (render_injective f).
    rewrite <- H; unfold cell_text, format_category, render.
    destruct (contains "Margin" name || contains "Growth" name);
      [reflexivity|].
    destruct (contains "EV/EBITDA" name || contains "EV_EBITDA" name
              || contains "P/E" name || String.eqb name "PE"); reflexivity.
Qed.

Lemma format_category_by_name_witness :
  contains "Margin" "EV_EBITDA_Margin" || contains "Growth" "EV_EBITDA_Margin"
    = true /\
  format_category "EV_EBITDA_Margin" = Percentage.
Proof.
  split; [reflexivity|].
  apply (proj1 (proj2 format_category_by_name)); reflexivity.
Defined.

(** The categories of the columns of the comparables table. *)
Example format_category_of_table_columns :
  map format_category
    ["EV (USD bn)"; "EBITDA (USD bn)"; "EV_EBITDA"; "PE"; "Rev_Growth_%";
     "EBITDA_Margin_%"]
  = [PlainDecimal; PlainDecimal; Multiple; Multiple; Percentage; Percentage].
Proof. reflexivity. Qed.

(** "PE" is matched as the whole name: a longer name that merely contains
    it falls to the default. *)
Example format_category_pe_is_exact :
  format_category "PE" = Multiple /\ format_category "PEG" = PlainDecimal.
Proof. split; reflexivity. Qed.

(** ** Filtering a series *)

Lemma valid_is_filter (s : list float) :
  dropna (replace_inf_nan s) = filter isfinite s.
Proof.
  unfold dropna, remove_nan, replace_inf_nan.
  induction s as [|x s IH]; simpl; [reflexivity|].
  destruct x; simpl; rewrite IH; reflexivity.
Qed.





(** ** Sorting *)













(** ** Floors *)





(** ** Interpolation between order statistics *)







(** ** The statistical summary *)


Lemma astype_float_floats (fs : list float) :
  astype_float (map PyFloat fs) = Ok fs.
Proof.
  unfold astype_float.
  rewrite (mapM_total _ (fun v => match v with PyFloat f => f | _ => NaN end)).
  - rewrite map_map; simpl; now rewrite map_id.
  - intros a Ha; apply in_map_iff in Ha; destruct Ha as (f & <- & _).
    reflexivity.
Qed.

(** A [float64] column is filtered without an exception. *)
Lemma valid_values_floats (fs : list float) :
  valid_values (map PyFloat fs) = Ok (filter isfinite fs).
Proof.
  unfold valid_values; rewrite astype_float_floats; simpl.
  now rewrite valid_is_filter.
Qed.



(** The texts of the summary table. *)
Lemma add_val_summary_table (df : DataFrame) (ev pe : series)
  (ev_s pe_s : list float) :
  getitem df "EV_EBITDA" = Ok ev -> valid_values ev = Ok ev_s ->
  getitem df "PE" = Ok pe -> valid_values pe = Ok pe_s ->
  add_val_summary df
  = Ok (TableSlide "Valuation Summary (EV/EBITDA & P/E)"
          {| tbl_rows := 3; tbl_cols := 4;
             tbl_header := ["Metric"; "Median (x)"; "25th (x)"; "75th (x)"];
             tbl_body :=
               [["EV/EBITDA";
                 fmt1 (fst (fst (summary_stats ev_s)));
                 fmt1 (snd (fst (summary_stats ev_s)));
                 fmt1 (snd (summary_stats ev_s))];
                ["P/E";
                 fmt1 (fst (fst (summary_stats pe_s)));
                 fmt1 (snd (fst (summary_stats pe_s)));
                 fmt1 (snd (summary_stats pe_s))]] |}).
Proof.
  intros Hev Hevs Hpe Hpes; unfold add_val_summary.
  rewrite Hev; simpl; rewrite Hevs; simpl; rewrite Hpe; simpl; rewrite Hpes.
  simpl; unfold summary_row.
  destruct (summary_stats ev_s) as [[m1 a1] b1].
  destruct (summary_stats pe_s) as [[m2 a2] b2].
  reflexivity.
Qed.




Lemma fmt1_finite_has_point (q : Q) : contains "." (fmt1 (Fin q)) = true.
Proof.
  assert (H : forall s a b : string,
             contains "." (s ++ (a ++ "." ++ b)) = true).
  { induction s as [|c s IHs]; intros a b.
    - induction a as [|c a IH]; simpl.
      + destruct b; reflexivity.
      + simpl in IH; rewrite IH; apply orb_true_r.
    - change (contains "." (String c (s ++ (a ++ "." ++ b))) = true).
      cbn [contains]; rewrite IHs; apply orb_true_r. }
  unfold fmt1; apply H.
Qed.

(** C2.  When no value of a numeric series is valid, the three statistics
    are NaN, not zero, and nothing is raised; the summary table shows each of
    them as the text "nan", which no number is shown as. *)
Theorem empty_series_is_undefined :
  (forall fs : list float,
      filter isfinite fs = [] ->
      exists v : list float,
        valid_values (map PyFloat fs) = Ok v /\
        summary_stats v = (NaN, NaN, NaN)) /\
  (forall (df : DataFrame) (ev pe : list float),
      getitem df "EV_EBITDA" = Ok (map PyFloat ev) ->
      getitem df "PE" = Ok (map PyFloat pe) ->
      exists (t : table) (r1 r2 : list string),
        add_val_summary df
        = Ok (TableSlide "Valuation Summary (EV/EBITDA & P/E)" t) /\
        tbl_body t = [r1; r2] /\
        (filter isfinite ev = [] -> r1 = ["EV/EBITDA"; "nan"; "nan"; "nan"]) /\
        (filter isfinite pe = [] -> r2 = ["P/E"; "nan"; "nan"; "nan"])) /\
  (forall q : Q, NaN <> Fin q /\ fmt1 (Fin q) <> fmt1 NaN).
Proof.
  split; [|split; [|split]].
  - intros fs H; exists []; split; [|reflexivity].
    now rewrite valid_values_floats, H.
  - intros df ev pe Hev Hpe.
    do 3 eexists; split; [|split; [|split]].
    + eapply add_val_summary_table; eauto using valid_values_floats.
    + reflexivity.
    + intros ->; reflexivity.
    + intros ->; reflexivity.
  - discriminate.
  - intros H; pose proof (fmt1_finite_has_point q) as Hp.
    rewrite H in Hp; discriminate.
Qed.

Lemma empty_series_is_undefined_witness :
  filter isfinite [NaN; PosInf; NegInf] = [] /\
  exists v : list float,
    valid_values (map PyFloat [NaN; PosInf; NegInf]) = Ok v /\
    summary_stats v = (NaN, NaN, NaN).
Proof.
  split; [reflexivity|].
  apply (proj1 empty_series_is_undefined); reflexivity.
Defined.

(** A run over a data set without one valid multiple shows "nan" throughout
    the summary. *)
Example summary_of_no_valid_rows :
  add_val_summary no_valid_rows
  = Ok (TableSlide "Valuation Summary (EV/EBITDA & P/E)"
          {| tbl_rows := 3; tbl_cols := 4;
             tbl_header := ["Metric"; "Median (x)"; "25th (x)"; "75th (x)"];
             tbl_body := [["EV/EBITDA"; "nan"; "nan"; "nan"];
                          ["P/E"; "nan"; "nan"; "nan"]] |}).
Proof. reflexivity. Qed.



(** ** Frames *)

Lemma lookup_replace_column (x name : string) (s : series)
  (cs : list (string * series)) :
  lookup x (replace_column name s cs)
  = if String.eqb name x then Some s else lookup x cs.
Proof.
  induction cs as [|[n old] cs IH]; simpl; [reflexivity|].
  destruct (String.eqb n name) eqn:Hn; simpl.
  - apply String.eqb_eq in Hn; subst n.
    destruct (String.eqb name x); reflexivity.
  - rewrite IH.
    destruct (String.eqb n x) eqn:Hx; [|reflexivity].
    apply String.eqb_eq in Hx; subst n.
    destruct (String.eqb name x) eqn:Hnx; [|reflexivity].
    apply String.eqb_eq in Hnx; subst; rewrite String.eqb_refl in Hn.
    discriminate.
Qed.

Lemma lookup_In (x : string) (cs : list (string * series)) (s : series) :
  lookup x cs = Some s -> In (x, s) cs.
Proof.
  induction cs as [|[n old] cs IH]; simpl; [discriminate|].
  destruct (String.eqb n x) eqn:Hn.
  - apply String.eqb_eq in Hn; intros H; inversion H; subst; now left.
  - intros H; right; auto.
Qed.

Lemma getitem_length (df : DataFrame) (name : string) (s : series) :
  well_formed df -> getitem df name = Ok s -> List.length s = df_len df.
Proof.
  unfold getitem, well_formed; intros Hwf H.
  destruct (lookup name (df_columns df)) as [s'|] eqn:Hl; [|discriminate].
  inversion H; subst.
  rewrite Forall_forall in Hwf; apply (Hwf _ (lookup_In _ _ _ Hl)).
Qed.

Lemma getitem_has_column (df : DataFrame) (name : string) :
  has_column df name = true -> exists s, getitem df name = Ok s.
Proof.
  unfold has_column, getitem.
  destruct (lookup name (df_columns df)); [simpl; eauto|discriminate].
Qed.

(** One column read of [df_tbl_of]: either the column is there, or the run
    has ended with a [KeyError]. *)
Ltac read_column name df :=
  unfold getitem; simpl; rewrite ?lookup_replace_column; simpl;
  destruct (lookup name (df_columns df)); simpl; [|discriminate].

(** The frame behind the comparables table: the nine columns in their fixed
    order, the two in millions rescaled and relabelled. *)
Lemma df_tbl_of_columns (df df_tbl : DataFrame) :
  df_tbl_of df = Ok df_tbl ->
  exists company ticker sector ev_m ebitda_m ev_ebitda pe growth margin,
    getitem df "Company" = Ok company /\
    getitem df "Ticker" = Ok ticker /\
    getitem df "Sector" = Ok sector /\
    getitem df "EV_USD_m" = Ok ev_m /\
    getitem df "EBITDA_USD_m" = Ok ebitda_m /\
    getitem df "EV_EBITDA" = Ok ev_ebitda /\
    getitem df "PE" = Ok pe /\
    getitem df "Rev_Growth_%" = Ok growth /\
    getitem df "EBITDA_Margin_%" = Ok margin /\
    df_tbl =
      {| df_len := df_len df;
         df_columns :=
           [("Company", company); ("Ticker", ticker); ("Sector", sector);
            ("EV (USD bn)", map scale_to_bn ev_m);
            ("EBITDA (USD bn)", map scale_to_bn ebitda_m);
            ("EV_EBITDA", ev_ebitda); ("PE", pe); ("Rev_Growth_%", growth);
            ("EBITDA_Margin_%", margin)] |}.
Proof.
  unfold df_tbl_of, getitem, select, has_column, setitem, cols; simpl.
  read_column "EV_USD_m" df; read_column "EBITDA_USD_m" df.
  read_column "Company" df; read_column "Ticker" df; read_column "Sector" df.
  read_column "EV_EBITDA" df; read_column "PE" df.
  read_column "Rev_Growth_%" df; read_column "EBITDA_Margin_%" df.
  intros H; inversion H; subst; clear H.
  do 9 eexists; repeat split; reflexivity.
Qed.

Lemma df_tbl_of_succeeds (df : DataFrame) :
  Forall (fun c => has_column df c = true) required_columns ->
  exists df_tbl, df_tbl_of df = Ok df_tbl.
Proof.
  unfold required_columns; intros H.
  repeat match goal with
         | H : Forall _ (_ :: _) |- _ => inversion H; subst; clear H
         | H : Forall _ [] |- _ => clear H
         end.
  unfold has_column in *.
  unfold df_tbl_of, getitem, select, has_column, setitem, cols; simpl.
  read_column "EV_USD_m" df; read_column "EBITDA_USD_m" df.
  read_column "Company" df; read_column "Ticker" df; read_column "Sector" df.
  read_column "EV_EBITDA" df; read_column "PE" df.
  read_column "Rev_Growth_%" df; read_column "EBITDA_Margin_%" df.
  eauto.
Qed.

Lemma df_tbl_of_well_formed (df df_tbl : DataFrame) :
  well_formed df -> df_tbl_of df = Ok df_tbl -> well_formed df_tbl.
Proof.
  intros Hwf H.
  destruct (df_tbl_of_columns _ _ H)
    as (c1 & c2 & c3 & c4 & c5 & c6 & c7 & c8 & c9
        & H1 & H2 & H3 & H4 & H5 & H6 & H7 & H8 & H9 & ->).
  unfold well_formed; simpl.
  repeat constructor; simpl; rewrite ?length_map;
    eauto using getitem_length.
Qed.

Lemma has_column_df_disp (df : DataFrame) (a b : series) (n : string) :
  has_column (setitem (setitem df "EV_USD_bn" a) "EBITDA_USD_bn" b) n
  = String.eqb "EBITDA_USD_bn" n || String.eqb "EV_USD_bn" n
    || has_column df n.
Proof.
  unfold has_column, setitem; cbn [df_columns].
  rewrite !lookup_replace_column.
  destruct (String.eqb "EBITDA_USD_bn" n); [reflexivity|].
  destruct (String.eqb "EV_USD_bn" n); reflexivity.
Qed.

(** Without one of its columns the run stops at the table frame, with a
    [KeyError] that names absent columns only. *)
Lemma df_tbl_of_missing (df : DataFrame) (c : string) :
  In c required_columns -> has_column df c = false ->
  exists missing : list string,
    df_tbl_of df = Raise (KeyError missing) /\
    missing <> [] /\
    Forall (fun m => In m required_columns /\ has_column df m = false) missing.
Proof.
  intros Hc Habs.
  unfold df_tbl_of.
  destruct (getitem df "EV_USD_m") as [ev_m|e] eqn:Hev.
  2:{ unfold getitem in Hev.
      destruct (lookup "EV_USD_m" (df_columns df)) eqn:Hl; [discriminate|].
      inversion Hev; subst; simpl.
      exists ["EV_USD_m"]; split; [reflexivity|split; [discriminate|]].
      apply Forall_cons; [|apply Forall_nil].
      split; [unfold required_columns; simpl; tauto|].
      unfold has_column; now rewrite Hl. }
  simpl.
  assert (Hev' : has_column df "EV_USD_m" = true).
  { unfold getitem in Hev; unfold has_column.
    destruct (lookup "EV_USD_m" (df_columns df)); [reflexivity|discriminate]. }
  set (df1 := setitem df "EV_USD_bn" (map scale_to_bn ev_m)).
  assert (Hsame : getitem df1 "EBITDA_USD_m" = getitem df "EBITDA_USD_m").
  { unfold getitem, df1, setitem; simpl; now rewrite lookup_replace_column. }
  rewrite Hsame.
  destruct (getitem df "EBITDA_USD_m") as [ebitda_m|e] eqn:Heb.
  2:{ unfold getitem in Heb.
      destruct (lookup "EBITDA_USD_m" (df_columns df)) eqn:Hl; [discriminate|].
      inversion Heb; subst; simpl.
      exists ["EBITDA_USD_m"]; split; [reflexivity|split; [discriminate|]].
      apply Forall_cons; [|apply Forall_nil].
      split; [unfold required_columns; simpl; tauto|].
      unfold has_column; now rewrite Hl. }
  simpl.
  assert (Heb' : has_column df "EBITDA_USD_m" = true).
  { unfold getitem in Heb; unfold has_column.
    destruct (lookup "EBITDA_USD_m" (df_columns df));
      [reflexivity|discriminate]. }
  unfold select, df1.
  set (absent :=
         filter (fun n => negb (has_column
                                  (setitem (setitem df "EV_USD_bn" (map scale_to_bn ev_m))
                                           "EBITDA_USD_bn" (map scale_to_bn ebitda_m)) n))
                cols).
  assert (Hin : In c absent).
  { apply filter_In; rewrite has_column_df_disp, Habs.
    unfold required_columns in Hc; simpl in Hc.
    repeat (destruct Hc as [<-|Hc];
            [first [congruence
                   |split; [unfold cols; simpl; tauto|reflexivity]]|]).
    destruct Hc. }
  assert (Hall : Forall (fun m => In m required_columns
                                  /\ has_column df m = false) absent).
  { apply Forall_forall; intros m Hm.
    apply filter_In in Hm; destruct Hm as [Hm Hno].
    rewrite has_column_df_disp in Hno.
    unfold cols in Hm; simpl in Hm.
    repeat (destruct Hm as [<-|Hm];
            [simpl in Hno;
             first [discriminate Hno
                   |split; [unfold required_columns; simpl; tauto
                           |now apply negb_true_iff in Hno]]|]).
    contradiction. }
  destruct absent as [|m rest] eqn:Habsent; [contradiction|].
  exists (m :: rest); split; [reflexivity|split; [discriminate|assumption]].
Qed.

(** ** Runs *)

Section Runs.

Variable argsort : list float -> list nat.

Lemma main_stops_at_table_frame (df : DataFrame) (out title : string)
  (e : error) :
  df_tbl_of df = Raise e ->
  main argsort df out title [] = (Raise e, []).
Proof.
  intros H; unfold main, io_bind, lift; now rewrite H.
Qed.

(** The two ways a run ends: with the four writes, the deck last; or with
    an exception, no deck written. *)
Lemma main_cases (df : DataFrame) (out title : string) (r : result unit)
  (log : list event) :
  main argsort df out title [] = (r, log) ->
  (exists df_tbl df_bar company ev growth pe line1 s3 s6 rest s4 s5 s7,
      r = Ok tt /\
      df_tbl_of df = Ok df_tbl /\
      sort_values_desc argsort df "EV_EBITDA" = Ok df_bar /\
      getitem df_bar "Company" = Ok company /\
      getitem df_bar "EV_EBITDA" = Ok ev /\
      getitem df "Rev_Growth_%" = Ok growth /\
      getitem df "PE" = Ok pe /\
      takeaway df = Ok line1 /\
      add_table "Comparable Companies Table" df_tbl = Ok s3 /\
      add_val_summary df = Ok s6 /\
      log = [Makedirs (Path.dirname out);
             Saved (Path.join (Path.dirname out) "ev_ebitda_chart.png")
               (BarChart company ev);
             Saved (Path.join (Path.dirname out) "pe_vs_growth.png")
               (ScatterChart growth pe);
             Saved out
               (Deck [TitleSlide title "Auto-generated from comps CSV";
                      BulletsSlide "Key Takeaways" (line1 :: rest);
                      s3; s4; s5; s6; s7])]) \/
  (exists e, r = Raise e /\
             forall f slides, ~ In (Saved f (Deck slides)) log).
Proof.
  unfold main, makedirs, io_bind, lift, emit, build_bar_chart_ev_ebitda,
    build_scatter_pe_growth, io_bind, lift, emit.
  destruct (df_tbl_of df) as [df_tbl|e] eqn:H1.
  2:{ intros H; inversion H; subst; right; eexists; split; [reflexivity|].
      intros f slides []. }
  destruct (sort_values_desc argsort df "EV_EBITDA") as [df_bar|e] eqn:H2.
  2:{ intros H; inversion H; subst; right; eexists; split; [reflexivity|].
      intros f slides []. }
  destruct (String.eqb (Path.dirname out) "").
  { intros H; inversion H; subst; right; eexists; split; [reflexivity|].
    intros f slides []. }
  simpl.
  destruct (getitem df_bar "Company") as [company|e] eqn:H3.
  2:{ intros H; inversion H; subst; right; eexists; split; [reflexivity|].
      intros f slides [Hf|[]]; discriminate. }
  destruct (getitem df_bar "EV_EBITDA") as [ev|e] eqn:H4.
  2:{ intros H; inversion H; subst; right; eexists; split; [reflexivity|].
      intros f slides [Hf|[]]; discriminate. }
  simpl.
  destruct (getitem df "Rev_Growth_%") as [growth|e] eqn:H5.
  2:{ intros H; inversion H; subst; right; eexists; split; [reflexivity|].
      intros f slides [Hf|[Hf|[]]]; discriminate. }
  destruct (getitem df "PE") as [pe|e] eqn:H6.
  2:{ intros H; inversion H; subst; right; eexists; split; [reflexivity|].
      intros f slides [Hf|[Hf|[]]]; discriminate. }
  simpl.
  destruct (takeaway df) as [line1|e] eqn:H7.
  2:{ intros H; inversion H; subst; right; eexists; split; [reflexivity|].
      intros f slides [Hf|[Hf|[Hf|[]]]]; discriminate. }
  destruct (add_table "Comparable Companies Table" df_tbl) as [s3|e] eqn:H8.
  2:{ intros H; inversion H; subst; right; eexists; split; [reflexivity|].
      intros f slides [Hf|[Hf|[Hf|[]]]]; discriminate. }
  destruct (add_val_summary df) as [s6|e] eqn:H9.
  2:{ intros H; inversion H; subst; right; eexists; split; [reflexivity|].
      intros f slides [Hf|[Hf|[Hf|[]]]]; discriminate. }
  intros H; inversion H; subst; clear H; left.
  exists df_tbl, df_bar, company, ev, growth, pe, line1, s3, s6.
  do 4 eexists; repeat split; solve [assumption | reflexivity].
Qed.

End Runs.

(** ** The comparables table *)

(** C8.  The comparables table has one header row and one row per row of the
    data set; its nine columns are, in this order, Company, Ticker, Sector,
    the two values rescaled to billions under the labels "EV (USD bn)" and
    "EBITDA (USD bn)", then EV_EBITDA, PE, Rev_Growth_% and
    EBITDA_Margin_%. *)
Theorem comps_table_rows_and_columns :
  (forall (df df_tbl : DataFrame) (s : slide),
      df_tbl_of df = Ok df_tbl ->
      add_table "Comparable Companies Table" df_tbl = Ok s ->
      exists t : table,
        s = TableSlide "Comparable Companies Table" t /\
        tbl_rows t = df_len df + 1 /\
        List.length (tbl_body t) = df_len df /\
        tbl_cols t = 9 /\
        tbl_header t =
          ["Company"; "Ticker"; "Sector"; "EV (USD bn)"; "EBITDA (USD bn)";
           "EV_EBITDA"; "PE"; "Rev_Growth_%"; "EBITDA_Margin_%"] /\
        Forall (fun row => List.length row = 9) (tbl_body t)) /\
  (forall df df_tbl : DataFrame,
      df_tbl_of df = Ok df_tbl ->
      exists ev_m ebitda_m : series,
        getitem df "EV_USD_m" = Ok ev_m /\
        getitem df "EBITDA_USD_m" = Ok ebitda_m /\
        getitem df_tbl "EV (USD bn)" = Ok (map scale_to_bn ev_m) /\
        getitem df_tbl "EBITDA (USD bn)" = Ok (map scale_to_bn ebitda_m)) /\
  (forall df : DataFrame,
      well_formed df ->
      Forall (fun c => has_column df c = true) required_columns ->
      exists (df_tbl : DataFrame) (t : table),
        df_tbl_of df = Ok df_tbl /\
        add_table "Comparable Companies Table" df_tbl
        = Ok (TableSlide "Comparable Companies Table" t)) /\
  (forall (argsort : list float -> list nat) (df : DataFrame)
          (out title : string) (log : list event),
      main argsort df out title [] = (Ok tt, log) ->
      exists (df_tbl : DataFrame) (s3 : slide) (slides : list slide),
        df_tbl_of df = Ok df_tbl /\
        add_table "Comparable Companies Table" df_tbl = Ok s3 /\
        nth_error slides 2 = Some s3 /\
        In (Saved out (Deck slides)) log).
Proof.
  split; [|split; [|split]].
  - intros df df_tbl s Hdf Htab.
    destruct (df_tbl_of_columns _ _ Hdf)
      as (c1 & c2 & c3 & c4 & c5 & c6 & c7 & c8 & c9
          & _ & _ & _ & _ & _ & _ & _ & _ & _ & ->).
    destruct (add_table_cells _ _ _ Htab)
      as (t & -> & Hrows & Hcols & Hhead & Hlen & Hcells).
    exists t; simpl in *.
    repeat split; try assumption; [lia|].
    apply Forall_forall; intros row Hrow.
    apply In_nth_error in Hrow; destruct Hrow as [i Hi].
    now apply Hcells in Hi.
  - intros df df_tbl Hdf.
    destruct (df_tbl_of_columns _ _ Hdf)
      as (c1 & c2 & c3 & c4 & c5 & c6 & c7 & c8 & c9
          & _ & _ & _ & H4 & H5 & _ & _ & _ & _ & ->).
    exists c4, c5; repeat split; assumption || reflexivity.
  - intros df Hwf Hall.
    destruct (df_tbl_of_succeeds df Hall) as [df_tbl Hdf].
    destruct (add_table_succeeds "Comparable Companies Table" df_tbl)
      as [t Ht]; [eapply df_tbl_of_well_formed; eauto|].
    eauto.
  - intros argsort df out title log Hrun.
    destruct (main_cases argsort df out title _ _ Hrun)
      as [(df_tbl & df_bar & company & ev & growth & pe & line1 & s3 & s6
           & rest & s4 & s5 & s7 & _ & Hdf & _ & _ & _ & _ & _ & _ & Htab
           & _ & ->)
         |(e & He & _)]; [|discriminate].
    exists df_tbl, s3,
      [TitleSlide title "Auto-generated from comps CSV";
       BulletsSlide "Key Takeaways" (line1 :: rest); s3; s4; s5; s6; s7].
    repeat split; try assumption.
    simpl; do 3 right; left; reflexivity.
Qed.

Lemma comps_table_rows_and_columns_witness :
  exists t : table,
    TableSlide "Comparable Companies Table"
      {| tbl_rows := 3; tbl_cols := 9;
         tbl_header :=
           ["Company"; "Ticker"; "Sector"; "EV (USD bn)"; "EBITDA (USD bn)";
            "EV_EBITDA"; "PE"; "Rev_Growth_%"; "EBITDA_Margin_%"];
         tbl_body :=
           [["A"; "AAA"; "Software"; "5.0"; "0.5"; "10.0x"; "20.0x"; "15.0%";
             "30.0%"];
            ["B"; "BBB"; "Software"; "2.0"; "0.1"; "20.0x"; "40.0x"; "5.0%";
             "10.0%"]] |}
    = TableSlide "Comparable Companies Table" t /\
    tbl_rows t = df_len two_rows + 1 /\
    List.length (tbl_body t) = df_len two_rows /\
    tbl_cols t = 9 /\
    tbl_header t =
      ["Company"; "Ticker"; "Sector"; "EV (USD bn)"; "EBITDA (USD bn)";
       "EV_EBITDA"; "PE"; "Rev_Growth_%"; "EBITDA_Margin_%"] /\
    Forall (fun row => List.length row = 9) (tbl_body t).
Proof.
  eapply (proj1 comps_table_rows_and_columns two_rows); reflexivity.
Defined.

(** ** Missing columns and the order of the writes *)

(** C9.  If a required column is absent the run ends with a [KeyError] for
    absent columns before anything is written; and whenever the deck is
    written the run has succeeded, the deck holds all seven slides and its
    file is the last one written. *)
Theorem missing_column_aborts_before_any_write :
  (forall (argsort : list float -> list nat) (df : DataFrame)
          (out title c : string),
      In c required_columns -> has_column df c = false ->
      exists missing : list string,
        main argsort df out title [] = (Raise (KeyError missing), []) /\
        missing <> [] /\
        Forall (fun m => In m required_columns /\ has_column df m = false)
               missing) /\
  (forall (argsort : list float -> list nat) (out title : string),
      main argsort two_rows_without_pe out title []
      = (Raise (KeyError ["PE"]), [])) /\
  (forall (argsort : list float -> list nat) (df : DataFrame)
          (out title file : string) (r : result unit) (log : list event)
          (slides : list slide),
      main argsort df out title [] = (r, log) ->
      In (Saved file (Deck slides)) log ->
      r = Ok tt /\ List.length slides = 7 /\
      last log (Makedirs "") = Saved file (Deck slides)).
Proof.
  split; [|split].
  - intros argsort df out title c Hc Habs.
    destruct (df_tbl_of_missing df c Hc Habs) as (missing & Hm & Hne & Hall).
    exists missing; split; [|split; assumption].
    now apply main_stops_at_table_frame.
  - intros argsort out title.
    now apply main_stops_at_table_frame.
  - intros argsort df out title file r log slides Hrun Hin.
    destruct (main_cases argsort df out title _ _ Hrun)
      as [(df_tbl & df_bar & company & ev & growth & pe & line1 & s3 & s6
           & rest & s4 & s5 & s7 & -> & _ & _ & _ & _ & _ & _ & _ & _
           & _ & ->)
         |(e & He & Hno)].
    + simpl in Hin.
      destruct Hin as [H|[H|[H|[H|[]]]]]; try discriminate.
      inversion H; subst; repeat split; reflexivity.
    + exfalso; eapply Hno; eauto.
Qed.

Lemma missing_column_aborts_before_any_write_witness :
  In "PE" required_columns /\ has_column two_rows_without_pe "PE" = false /\
  exists missing : list string,
    main argsort_stable two_rows_without_pe "output/pitch_comps.pptx" "Deck" []
    = (Raise (KeyError missing), []) /\
    missing <> [] /\
    Forall (fun m => In m required_columns
                     /\ has_column two_rows_without_pe m = false) missing.
Proof.
  split; [unfold required_columns; simpl; tauto|].
  split; [reflexivity|].
  apply (proj1 missing_column_aborts_before_any_write argsort_stable
           two_rows_without_pe "output/pitch_comps.pptx" "Deck" "PE");
    [unfold required_columns; simpl; tauto|reflexivity].
Defined.

(** ** The first takeaway *)

Lemma takeaway_text (df : DataFrame) (evc pec : series) (ev pe : list float) :
  getitem df "EV_EBITDA" = Ok evc -> numeric_values evc = Ok ev ->
  getitem df "PE" = Ok pec -> numeric_values pec = Ok pe ->
  takeaway df
  = Ok ("Median EV/EBITDA ≈ " ++ fmt1 (np_nanmedian ev) ++ "x; P/E ≈ "
          ++ fmt1 (np_nanmedian pe) ++ "x")%string.
Proof.
  intros H1 H2 H3 H4; unfold takeaway, median.
  rewrite H1; simpl; rewrite H2; simpl; rewrite H3; simpl; rewrite H4.
  reflexivity.
Qed.

(** C6, as the specification states it, fails: with a missing value in the
    column the takeaway shows the median of the values that are present,
    where the median of the raw column has no value.  The column below has
    three rows, so a median over all its rows would be one of its cells; the
    15.0 and 30.0 shown are none of them. *)
Lemma takeaway_is_not_the_raw_median :
  getitem three_rows_one_missing "EV_EBITDA"
  = Ok [PyFloat (Fin 10); PyFloat NaN; PyFloat (Fin 20)] /\
  getitem three_rows_one_missing "PE"
  = Ok [PyFloat (Fin 20); PyFloat NaN; PyFloat (Fin 40)] /\
  takeaway three_rows_one_missing
  = Ok "Median EV/EBITDA ≈ 15.0x; P/E ≈ 30.0x" /\
  takeaway three_rows_one_missing
  <> Ok ("Median EV/EBITDA ≈ " ++ fmt1 (raw_median [Fin 10; NaN; Fin 20])
           ++ "x; P/E ≈ " ++ fmt1 (raw_median [Fin 20; NaN; Fin 40])
           ++ "x")%string /\
  Forall (fun x => fmt1 x <> "15.0") [Fin 10; NaN; Fin 20] /\
  Forall (fun x => fmt1 x <> "30.0") [Fin 20; NaN; Fin 40].
Proof.
  repeat split; try discriminate; repeat constructor; discriminate.
Qed.

(** C6, amended.  The medians of the takeaway are taken over the values of
    the column that are not missing, the infinite ones included, and are
    shown with one decimal and an "x"; on the two-company data set the line
    reads "Median EV/EBITDA ≈ 15.0x; P/E ≈ 30.0x". *)
Theorem takeaway_medians_skip_missing_values :
  (forall (df : DataFrame) (evc pec : series) (ev pe : list float),
      getitem df "EV_EBITDA" = Ok evc -> numeric_values evc = Ok ev ->
      getitem df "PE" = Ok pec -> numeric_values pec = Ok pe ->
      takeaway df
      = Ok ("Median EV/EBITDA ≈ " ++ fmt1 (np_nanmedian ev) ++ "x; P/E ≈ "
              ++ fmt1 (np_nanmedian pe) ++ "x")%string) /\
  (forall s : list float,
      remove_nan s <> [] -> np_nanmedian s = raw_median (remove_nan s)) /\
  (forall s : list float, remove_nan s = [] -> np_nanmedian s = NaN) /\
  (forall (s : list float) (x : float),
      In x (remove_nan s) <-> In x s /\ isnan x = false) /\
  np_nanmedian [Fin 10; PosInf; Fin 20] = Fin 20 /\
  float_equiv
    (fst (fst (summary_stats (dropna (replace_inf_nan [Fin 10; PosInf; Fin 20])))))
    (Fin 15) /\
  takeaway two_rows = Ok "Median EV/EBITDA ≈ 15.0x; P/E ≈ 30.0x".
Proof.
  split; [exact takeaway_text|].
  split; [|split; [|split; [|repeat split]]].
  - intros s Hne; unfold np_nanmedian, raw_median.
    destruct (remove_nan s); [congruence|reflexivity].
  - intros s He; unfold np_nanmedian; now rewrite He.
  - intros s x; unfold remove_nan; rewrite filter_In.
    now rewrite negb_true_iff.
Qed.

Lemma takeaway_medians_skip_missing_values_witness :
  takeaway three_rows_one_missing
  = Ok ("Median EV/EBITDA ≈ " ++ fmt1 (np_nanmedian [Fin 10; NaN; Fin 20])
          ++ "x; P/E ≈ " ++ fmt1 (np_nanmedian [Fin 20; NaN; Fin 40])
          ++ "x")%string.
Proof.
  apply (proj1 takeaway_medians_skip_missing_values three_rows_one_missing
           [PyFloat (Fin 10); PyFloat NaN; PyFloat (Fin 20)]
           [PyFloat (Fin 20); PyFloat NaN; PyFloat (Fin 40)]);
    reflexivity.
Defined.

(** ** The order on floats *)

Lemma fle_trans (a b c : float) : fle a b -> fle b c -> fle a c.
Proof.
  unfold fle; destruct a, b, c; simpl; try congruence.
  rewrite !Qle_bool_iff; apply Qle_trans.
Qed.

Lemma fleb_total (a b : float) :
  isnan a = false -> isnan b = false -> fleb a b = false -> fleb b a = true.
Proof.
  destruct a, b; simpl; try congruence.
  intros _ _ H; apply Qle_bool_iff.
  destruct (Qlt_le_dec q0 q) as [Hlt|Hle]; [now apply Qlt_le_weak|].
  apply Qle_bool_iff in Hle; congruence.
Qed.

(** ** Lists of positions *)

Lemma map_nth_seq {A : Type} (l : list A) (d : A) :
  map (fun i => nth i l d) (seq 0 (List.length l)) = l.
Proof.
  induction l as [|x l IH]; simpl; [reflexivity|].
  f_equal; rewrite <- seq_shift, map_map; exact IH.
Qed.

Lemma filter_split_perm {A : Type} (p : A -> bool) (l : list A) :
  Permutation (filter (fun x => negb (p x)) l ++ filter p l) l.
Proof.
  induction l as [|x l IH]; simpl; [constructor|].
  destruct (p x); simpl.
  - rewrite <- Permutation_middle; now constructor.
  - now constructor.
Qed.

Lemma StronglySorted_app {A : Type} (R : A -> A -> Prop) (l1 l2 : list A) :
  StronglySorted R l1 -> StronglySorted R l2 ->
  (forall a b, In a l1 -> In b l2 -> R a b) ->
  StronglySorted R (l1 ++ l2).
Proof.
  induction 1 as [|x l1 Hs IH Hx]; intros H2 Hcross; simpl; [assumption|].
  constructor.
  - apply IH; [assumption|]; intros; apply Hcross; simpl; auto.
  - apply Forall_app; split; [assumption|].
    apply Forall_forall; intros b Hb; apply Hcross; simpl; auto.
Qed.

Lemma StronglySorted_rev {A : Type} (R : A -> A -> Prop) (l : list A) :
  StronglySorted R l -> StronglySorted (fun a b => R b a) (rev l).
Proof.
  induction 1 as [|x l Hs IH Hx]; simpl; [constructor|].
  apply StronglySorted_app; [assumption|repeat constructor|].
  intros a b Ha [<-|[]].
  rewrite Forall_forall in Hx; apply Hx; now apply in_rev.
Qed.

Lemma StronglySorted_map {A B : Type} (f : A -> B) (R : B -> B -> Prop)
  (l : list A) :
  StronglySorted (fun a b => R (f a) (f b)) l -> StronglySorted R (map f l).
Proof.
  induction 1 as [|x l Hs IH Hx]; simpl; constructor; [assumption|].
  apply Forall_map; exact Hx.
Qed.

(** ** Insertion sort on positions *)

Section InsertionArgsort.

Variable before : float -> float -> bool.
Variable xs : list float.

Hypothesis xs_no_nan : Forall (fun x => isnan x = false) xs.
Hypothesis before_le :
  forall a b, isnan a = false -> isnan b = false ->
              before a b = true -> fle a b.
Hypothesis not_before_ge :
  forall a b, isnan a = false -> isnan b = false ->
              before a b = false -> fle b a.

Let key (i : nat) : float := nth i xs NaN.
Let in_range (i : nat) : Prop := i < List.length xs.

Lemma key_no_nan (i : nat) : in_range i -> isnan (key i) = false.
Proof.
  intros Hi; rewrite Forall_forall in xs_no_nan.
  apply xs_no_nan, nth_In, Hi.
Qed.

Lemma insert_index_perm (i : nat) (l : list nat) :
  Permutation (i :: l) (insert_index before xs i l).
Proof.
  induction l as [|j l IH]; simpl; [reflexivity|].
  destruct (before (nth i xs NaN) (nth j xs NaN)); [reflexivity|].
  rewrite perm_swap; now constructor.
Qed.

Lemma insert_index_sorted (i : nat) (l : list nat) :
  in_range i -> Forall in_range l ->
  StronglySorted (fun a b => fle (key a) (key b)) l ->
  StronglySorted (fun a b => fle (key a) (key b))
                 (insert_index before xs i l).
Proof.
  intros Hi Hl Hs; induction Hs as [|j l Hs IH Hj]; simpl.
  - repeat constructor.
  - inversion Hl as [|? ? Hjr Hlr]; subst.
    destruct (before (nth i xs NaN) (nth j xs NaN)) eqn:Hb.
    + assert (Hij : fle (key i) (key j))
        by (apply before_le; auto using key_no_nan).
      constructor; [now constructor|].
      constructor; [assumption|].
      eapply Forall_impl; [|exact Hj]; intros a Ha; simpl in Ha.
      eapply fle_trans; eauto.
    + assert (Hji : fle (key j) (key i))
        by (apply not_before_ge; auto using key_no_nan).
      constructor; [now apply IH|].
      eapply Permutation_Forall; [apply insert_index_perm|].
      now constructor.
Qed.

Lemma argsort_with_spec :
  Permutation (argsort_with before xs) (seq 0 (List.length xs)) /\
  StronglySorted (fun a b => fle a b)
                 (map (fun i => nth i xs NaN) (argsort_with before xs)).
Proof.
  unfold argsort_with.
  assert (H : forall l : list nat,
             Forall in_range l ->
             Permutation (fold_right (insert_index before xs) [] l) l /\
             StronglySorted (fun a b => fle (key a) (key b))
                            (fold_right (insert_index before xs) [] l)).
  { induction l as [|i l IH]; intros Hl; simpl.
    - split; constructor.
    - inversion Hl as [|? ? Hi Hr]; subst.
      destruct (IH Hr) as [Hp Hs]; split.
      + rewrite <- insert_index_perm; now constructor.
      + apply insert_index_sorted; [assumption| |assumption].
        eapply Permutation_Forall; [symmetry; exact Hp|assumption]. }
  destruct (H (seq 0 (List.length xs))) as [Hp Hs].
  - apply Forall_forall; intros i Hi; apply in_seq in Hi.
    unfold in_range; lia.
  - split; [assumption|]; now apply StronglySorted_map.
Qed.

End InsertionArgsort.

Lemma argsort_stable_sorts : sorts_ascending argsort_stable.
Proof.
  intros xs Hxs; apply argsort_with_spec; [assumption| |].
  - intros a b _ _ H; exact H.
  - intros a b Ha Hb H; now apply fleb_total.
Qed.


(** ** Sorting a frame *)

Section SortValues.

Variable argsort : list float -> list nat.
Hypothesis argsort_contract : sorts_ascending argsort.

(** The positions [nargsort] returns: every row once, the values that are
    not NaN in descending order, the NaN after them. *)
Lemma nargsort_desc_spec (items : list float) :
  Permutation (nargsort_desc argsort items) (seq 0 (List.length items)) /\
  descending_nan_last
    (map (fun i => nth i items NaN) (nargsort_desc argsort items)).
Proof.
  unfold nargsort_desc.
  set (key := fun i => nth i items NaN).
  set (idx := seq 0 (List.length items)).
  set (nni := rev (filter (fun i => negb (isnan (key i))) idx)).
  set (nn := map key nni).
  assert (Hnn : Forall (fun x => isnan x = false) nn).
  { apply Forall_map, Forall_forall; intros i Hi.
    apply in_rev, filter_In in Hi; destruct Hi as [_ Hi].
    now apply negb_true_iff in Hi. }
  destruct (argsort_contract nn Hnn) as [Hperm Hsorted].
  assert (Hlen : List.length nn = List.length nni)
    by (unfold nn; apply length_map).
  assert (Hvals : map (fun k => key (nth k nni O)) (argsort nn)
                  = map (fun k => nth k nn NaN) (argsort nn)).
  { apply map_ext_in; intros k Hk.
    apply (Permutation_in _ Hperm), in_seq in Hk.
    unfold nn; rewrite (nth_indep _ NaN (key O)) by (rewrite length_map; lia).
    symmetry; apply map_nth. }
  split.
  - eapply Permutation_trans;
      [|apply (filter_split_perm (fun i => isnan (key i)) idx)].
    apply Permutation_app_tail.
    eapply Permutation_trans; [symmetry; apply Permutation_rev|].
    eapply Permutation_trans; [apply Permutation_map, Hperm|].
    rewrite Hlen, map_nth_seq; unfold nni.
    symmetry; apply Permutation_rev.
  - exists (rev (map (fun k => nth k nn NaN) (argsort nn))),
           (map key (filter (fun i => isnan (key i)) idx)).
    repeat split.
    + rewrite map_app, map_rev, map_map.
      f_equal; f_equal; exact Hvals.
    + apply Forall_forall; intros x Hx; apply in_rev in Hx.
      assert (Hp : Permutation (map (fun k => nth k nn NaN) (argsort nn)) nn).
      { eapply Permutation_trans; [apply Permutation_map, Hperm|].
        now rewrite map_nth_seq. }
      rewrite Forall_forall in Hnn; apply Hnn.
      eapply Permutation_in; eauto.
    + apply Forall_map, Forall_forall; intros i Hi.
      now apply filter_In in Hi.
    + now apply StronglySorted_rev.
Qed.

End SortValues.




Lemma take_nth (s : series) (indexer : list nat) (s' : series) (d : pyval) :
  take s indexer = Ok s' -> s' = map (fun i => nth i s d) indexer.
Proof.
  intros H; apply (mapM_ok_map _ _ _ _ H).
  intros i v _ Hv.
  destruct (nth_error s i) as [x|] eqn:Hx; [|discriminate].
  inversion Hv; subst; symmetry; now apply nth_error_nth.
Qed.



Lemma sorted_columns_lookup (indexer : list nat)
  (cs sorted : list (string * series)) :
  mapM (fun c => s <- take (snd c) indexer ;; Ok (fst c, s)) cs = Ok sorted ->
  forall name s, lookup name cs = Some s ->
    exists s', take s indexer = Ok s' /\ lookup name sorted = Some s'.
Proof.
  revert sorted; induction cs as [|[n c] cs IH]; intros sorted H name s Hl;
    simpl in *; [discriminate|].
  destruct (take c indexer) as [c'|e] eqn:Hc; simpl in H; [|discriminate].
  destruct (mapM _ cs) as [rest|e] eqn:Hrest; simpl in H; [|discriminate].
  inversion H; subst; clear H; simpl.
  destruct (String.eqb n name).
  - inversion Hl; subst; eauto.
  - eapply IH; eauto.
Qed.

(** The sorted frame holds the rows of the data set in the order of
    [nargsort]. *)
Lemma sort_values_desc_columns (argsort : list float -> list nat)
  (df df_bar : DataFrame) (by_ : string) :
  sort_values_desc argsort df by_ = Ok df_bar ->
  exists (k : series) (items : list float),
    getitem df by_ = Ok k /\ numeric_values k = Ok items /\
    forall name s, getitem df name = Ok s ->
      exists s', take s (nargsort_desc argsort items) = Ok s' /\
                 getitem df_bar name = Ok s'.
Proof.
  unfold sort_values_desc; intros H.
  destruct (getitem df by_) as [k|e] eqn:Hk; simpl in H; [|discriminate].
  destruct (numeric_values k) as [items|e] eqn:Hi; simpl in H;
    [|discriminate].
  destruct (mapM _ (df_columns df)) as [sorted|e] eqn:Hs; simpl in H;
    [|discriminate].
  inversion H; subst; clear H.
  exists k, items; split; [reflexivity|split; [assumption|]].
  intros name s Hg; unfold getitem in *; simpl.
  destruct (lookup name (df_columns df)) as [s0|] eqn:Hl; [|discriminate].
  inversion Hg; subst.
  destruct (sorted_columns_lookup _ _ _ Hs _ _ Hl) as (s' & Ht & Hl').
  exists s'; now rewrite Hl'.
Qed.

Lemma combine_map {A B C : Type} (f : A -> B) (g : A -> C) (l : list A) :
  combine (map f l) (map g l) = map (fun a => (f a, g a)) l.
Proof. induction l as [|a l IH]; simpl; congruence. Qed.

Lemma combine_by_position {A B : Type} (l1 : list A) (l2 : list B)
  (d1 : A) (d2 : B) :
  List.length l1 = List.length l2 ->
  combine l1 l2
  = map (fun i => (nth i l1 d1, nth i l2 d2)) (seq 0 (List.length l1)).
Proof.
  intros H.
  rewrite <- (map_nth_seq (combine l1 l2) (d1, d2)) at 1.
  rewrite length_combine, <- H, Nat.min_id.
  apply map_ext_in; intros i _; now apply combine_nth.
Qed.

(** A column of a table lists the cells of its source column, in the order
    of the rows. *)
Lemma table_column (title : string) (df : DataFrame) (t : table) (j : nat)
  (name : string) (s : series) :
  add_table title df = Ok (TableSlide title t) ->
  nth_error (df_columns df) j = Some (name, s) ->
  List.length s = df_len df ->
  map (fun row => nth j row "") (tbl_body t) = map (cell_text name) s.
Proof.
  intros Htab Hcol Hlen.
  destruct (add_table_cells _ _ _ Htab)
    as (t' & Heq & _ & _ & _ & Hbody & Hcells).
  inversion Heq; subst t'; clear Heq.
  apply nth_error_ext; intros i.
  rewrite !nth_error_map.
  destruct (nth_error (tbl_body t) i) as [row|] eqn:Hrow; simpl.
  - destruct (Hcells _ _ Hrow) as [Hwidth Hcell].
    assert (Hj : j < List.length (df_columns df))
      by (apply nth_error_Some; congruence).
    destruct (nth_error row j) as [txt|] eqn:Htxt.
    2:{ apply nth_error_None in Htxt; lia. }
    destruct (Hcell _ _ Htxt) as (val & Hval & ->).
    unfold iat in Hval; rewrite Hcol in Hval; simpl in Hval.
    destruct (nth_error s i) as [v|] eqn:Hv; [|discriminate].
    inversion Hval; subst; simpl.
    rewrite (nth_error_nth _ _ _ Htxt).
    unfold column_names.
    now rewrite (nth_error_nth _ _ _ (map_nth_error fst _ _ Hcol)).
  - apply nth_error_None in Hrow.
    destruct (nth_error s i) eqn:Hv; [|reflexivity].
    assert (i < List.length s) by (apply nth_error_Some; congruence).
    lia.
Qed.

(** ** The bar chart *)




(** The scenario of the specification: B (20.0) before A (10.0). *)
Example bar_chart_of_two_rows :
  In (Saved "output/ev_ebitda_chart.png"
        (BarChart [str_cell "B"; str_cell "A"] [float_cell 20; float_cell 10]))
     (snd (main argsort_stable two_rows "output/pitch_comps.pptx" "Deck" [])).
Proof. vm_compute; right; left; reflexivity. Qed.

(** With a routine that keeps equal values in order, tied rows keep their
    input order. *)
Example bar_chart_ties_with_stable_sort :
  In (Saved "output/ev_ebitda_chart.png"
        (BarChart [str_cell "A"; str_cell "B"] [float_cell 10; float_cell 10]))
     (snd (main argsort_stable tied_rows "output/pitch_comps.pptx" "Deck" [])).
Proof. vm_compute; right; left; reflexivity. Qed.

(** * Further properties of the script *)

(** ** Numeric columns *)




(** ** Sorting succeeds *)


(** ** Complete runs *)



Lemma add_val_summary_slide (df : DataFrame) (s : slide) :
  add_val_summary df = Ok s ->
  exists (ev pe : series) (ev_s pe_s : list float),
    getitem df "EV_EBITDA" = Ok ev /\ valid_values ev = Ok ev_s /\
    getitem df "PE" = Ok pe /\ valid_values pe = Ok pe_s.
Proof.
  unfold add_val_summary; intros H.
  destruct (getitem df "EV_EBITDA") as [ev|e]; simpl in H; [|discriminate].
  destruct (valid_values ev) as [ev_s|e] eqn:Hev; simpl in H; [|discriminate].
  destruct (getitem df "PE") as [pe|e]; simpl in H; [|discriminate].
  destruct (valid_values pe) as [pe_s|e] eqn:Hpe; simpl in H; [|discriminate].
  exists ev, pe, ev_s, pe_s; auto.
Qed.

(** X2.  The deck of a completed run has seven slides in a fixed order: the
    title with a fixed subtitle, three takeaways of which the first is
    computed, the comparables table, the two charts (the pictures are the
    two files the run has just written, the first without a caption), the
    summary table, and three methodology lines of which the first gives the
    number of rows of the data set. *)
Theorem deck_has_seven_fixed_slides (argsort : list float -> list nat)
  (df : DataFrame) (out title : string) (log : list event) :
  main argsort df out title [] = (Ok tt, log) ->
  exists (line1 : string) (t3 t6 : table) (bar scatter : artifact),
    takeaway df = Ok line1 /\
    log =
      [Makedirs (Path.dirname out);
       Saved (Path.join (Path.dirname out) "ev_ebitda_chart.png") bar;
       Saved (Path.join (Path.dirname out) "pe_vs_growth.png") scatter;
       Saved out
         (Deck
            [TitleSlide title "Auto-generated from comps CSV";
             BulletsSlide "Key Takeaways"
               [line1;
                "Prefer medians & IQR (25–75th) over means due to outliers";
                "Growth/margins cluster in Software/Semis within this sample"];
             TableSlide "Comparable Companies Table" t3;
             PictureSlide "EV/EBITDA – Distribution"
               (Path.join (Path.dirname out) "ev_ebitda_chart.png") None;
             PictureSlide "P/E vs Revenue Growth"
               (Path.join (Path.dirname out) "pe_vs_growth.png")
               (Some "Illustrative only; ensure sector comparability.");
             TableSlide "Valuation Summary (EV/EBITDA & P/E)" t6;
             BulletsSlide "Methodology & Sources"
               [("Universe: " ++ str_of_nat (df_len df)
                   ++ " listed software comps; currency: USD; base: TTM.")%string;
                "Valuation: EV/EBITDA & P/E; medians and interquartile range (25–75th).";
                "Outliers reviewed; results illustrative. Sources: public filings & aggregators."]])].
Proof.
  unfold main, makedirs, io_bind, lift, emit, build_bar_chart_ev_ebitda,
    build_scatter_pe_growth, io_bind, lift, emit.
  destruct (df_tbl_of df) as [df_tbl|e]; [|discriminate].
  destruct (sort_values_desc argsort df "EV_EBITDA") as [df_bar|e];
    [|discriminate].
  destruct (String.eqb (Path.dirname out) ""); [discriminate|]; simpl.
  destruct (getitem df_bar "Company") as [company|e]; [|discriminate].
  destruct (getitem df_bar "EV_EBITDA") as [ev|e]; [|discriminate]; simpl.
  destruct (getitem df "Rev_Growth_%") as [growth|e]; [|discriminate].
  destruct (getitem df "PE") as [pe|e]; [|discriminate]; simpl.
  destruct (takeaway df) as [line1|e]; [|discriminate].
  destruct (add_table "Comparable Companies Table" df_tbl) as [s3|e] eqn:H3;
    [|discriminate].
  destruct (add_val_summary df) as [s6|e] eqn:H6; [|discriminate].
  intros H; inversion H; subst; clear H.
  destruct (add_table_cells _ _ _ H3) as (t3 & -> & _).
  destruct (add_val_summary_slide _ _ H6)
    as (evc & pec & ev_s & pe_s & Hev & Hevs & Hpe & Hpes).
  rewrite (add_val_summary_table df evc pec ev_s pe_s Hev Hevs Hpe Hpes) in H6.
  inversion H6; subst.
  do 5 eexists; split; reflexivity.
Qed.

Lemma deck_has_seven_fixed_slides_witness :
  exists (line1 : string) (t3 t6 : table) (bar scatter : artifact),
    takeaway two_rows = Ok line1 /\
    snd (main argsort_stable two_rows "output/pitch_comps.pptx" "Deck" []) =
      [Makedirs (Path.dirname "output/pitch_comps.pptx");
       Saved (Path.join (Path.dirname "output/pitch_comps.pptx")
                "ev_ebitda_chart.png") bar;
       Saved (Path.join (Path.dirname "output/pitch_comps.pptx")
                "pe_vs_growth.png") scatter;
       Saved "output/pitch_comps.pptx"
         (Deck
            [TitleSlide "Deck" "Auto-generated from comps CSV";
             BulletsSlide "Key Takeaways"
               [line1;
                "Prefer medians & IQR (25–75th) over means due to outliers";
                "Growth/margins cluster in Software/Semis within this sample"];
             TableSlide "Comparable Companies Table" t3;
             PictureSlide "EV/EBITDA – Distribution"
               (Path.join (Path.dirname "output/pitch_comps.pptx")
                  "ev_ebitda_chart.png") None;
             PictureSlide "P/E vs Revenue Growth"
               (Path.join (Path.dirname "output/pitch_comps.pptx")
                  "pe_vs_growth.png")
               (Some "Illustrative only; ensure sector comparability.");
             TableSlide "Valuation Summary (EV/EBITDA & P/E)" t6;
             BulletsSlide "Methodology & Sources"
               [("Universe: " ++ str_of_nat (df_len two_rows)
                   ++ " listed software comps; currency: USD; base: TTM.")%string;
                "Valuation: EV/EBITDA & P/E; medians and interquartile range (25–75th).";
                "Outliers reviewed; results illustrative. Sources: public filings & aggregators."]])].
Proof.
  apply (deck_has_seven_fixed_slides argsort_stable two_rows
           "output/pitch_comps.pptx" "Deck").
  vm_compute; reflexivity.
Defined.

(** A step of [main] that ended the run, or a write that is none of the
    kind looked for. *)
Ltac no_such_write H Hin :=
  inversion H; subst; simpl in Hin;
  repeat (destruct Hin as [Hin|Hin]; [discriminate Hin|]);
  contradiction.

(** X3.  Whenever a run writes the scatter chart, also a run that fails
    later, the chart holds the revenue growth and the P/E columns of the
    data set as read, in input order (not the sorted rows the bar chart
    gets), under the name [pe_vs_growth.png] in the directory of the
    deck. *)
Theorem scatter_chart_in_input_order (argsort : list float -> list nat)
  (df : DataFrame) (out title file : string) (r : result unit)
  (log : list event) (xs ys : series) :
  main argsort df out title [] = (r, log) ->
  In (Saved file (ScatterChart xs ys)) log ->
  getitem df "Rev_Growth_%" = Ok xs /\ getitem df "PE" = Ok ys /\
  file = Path.join (Path.dirname out) "pe_vs_growth.png".
Proof.
  unfold main, makedirs, io_bind, lift, emit, build_bar_chart_ev_ebitda,
    build_scatter_pe_growth, io_bind, lift, emit.
  destruct (df_tbl_of df) as [df_tbl|e];
    [|intros H Hin; no_such_write H Hin].
  destruct (sort_values_desc argsort df "EV_EBITDA") as [df_bar|e];
    [|intros H Hin; no_such_write H Hin].
  destruct (String.eqb (Path.dirname out) "");
    [intros H Hin; no_such_write H Hin|]; simpl.
  destruct (getitem df_bar "Company") as [company|e];
    [|intros H Hin; no_such_write H Hin].
  destruct (getitem df_bar "EV_EBITDA") as [ev|e];
    [|intros H Hin; no_such_write H Hin]; simpl.
  destruct (getitem df "Rev_Growth_%") as [growth|e];
    [|intros H Hin; no_such_write H Hin].
  destruct (getitem df "PE") as [pe|e];
    [|intros H Hin; no_such_write H Hin]; simpl.
  assert (Hscatter :
            forall (rest : list event),
              (forall f a, In (Saved f a) rest ->
                           forall x y, a <> ScatterChart x y) ->
              In (Saved file (ScatterChart xs ys))
                 ([Makedirs (Path.dirname out);
                   Saved (Path.join (Path.dirname out) "ev_ebitda_chart.png")
                     (BarChart company ev);
                   Saved (Path.join (Path.dirname out) "pe_vs_growth.png")
                     (ScatterChart growth pe)] ++ rest) ->
              Ok growth = Ok xs /\ Ok pe = Ok ys /\
              file = Path.join (Path.dirname out) "pe_vs_growth.png").
  { intros rest Hrest Hin; simpl in Hin.
    destruct Hin as [Hin|[Hin|[Hin|Hin]]]; try discriminate.
    - inversion Hin; subst; auto.
    - exfalso; eapply Hrest; eauto. }
  destruct (takeaway df) as [line1|e].
  2:{ intros H Hin; inversion H; subst.
      apply (Hscatter []); [intros f a []|exact Hin]. }
  destruct (add_table "Comparable Companies Table" df_tbl) as [s3|e].
  2:{ intros H Hin; inversion H; subst.
      apply (Hscatter []); [intros f a []|exact Hin]. }
  destruct (add_val_summary df) as [s6|e].
  2:{ intros H Hin; inversion H; subst.
      apply (Hscatter []); [intros f a []|exact Hin]. }
  intros H Hin; inversion H; subst.
  eapply (Hscatter [_]); [|exact Hin].
  intros f a [Ha|[]] x y; inversion Ha; subst; discriminate.
Qed.

Lemma scatter_chart_in_input_order_witness :
  getitem two_rows "Rev_Growth_%" = Ok [float_cell 15; float_cell 5] /\
  getitem two_rows "PE" = Ok [float_cell 20; float_cell 40] /\
  "output/pe_vs_growth.png"
  = Path.join (Path.dirname "output/pitch_comps.pptx") "pe_vs_growth.png".
Proof.
  apply (scatter_chart_in_input_order argsort_stable two_rows
           "output/pitch_comps.pptx" "Deck" "output/pe_vs_growth.png"
           (fst (main argsort_stable two_rows "output/pitch_comps.pptx"
                   "Deck" []))
           (snd (main argsort_stable two_rows "output/pitch_comps.pptx"
                   "Deck" []))).
  - vm_compute; reflexivity.
  - vm_compute; right; right; left; reflexivity.
Defined.

(** ** Runs that fail *)



Lemma head_without_separator (s : string) :
  contains "/" s = false -> Path.head (list_ascii_of_string s) = [].
Proof.
  induction s as [|c s IH]; simpl; [reflexivity|].
  intros H; apply orb_false_iff in H; destruct H as [Hp Hc].
  rewrite (IH Hc).
  destruct (ascii_dec "/" c) as [<-|Hne].
  - destruct s; discriminate.
  - unfold Path.is_sep.
    destruct (Ascii.eqb c "/") eqn:Hcs; [|reflexivity].
    apply Ascii.eqb_eq in Hcs; congruence.
Qed.

Lemma dirname_without_separator (s : string) :
  contains "/" s = false -> Path.dirname s = "".
Proof.
  intros H; unfold Path.dirname; now rewrite head_without_separator.
Qed.

(** X5.  With an output path that has no slash the run writes nothing: the
    directory name is empty and [os.makedirs] raises, so once the frames
    are built the run ends with [FileNotFoundError]. *)
Theorem no_directory_nothing_written (argsort : list float -> list nat)
  (df : DataFrame) (out title : string) :
  contains "/" out = false ->
  snd (main argsort df out title []) = [] /\
  exists e : error,
    fst (main argsort df out title []) = Raise e /\
    (forall df_tbl df_bar : DataFrame,
        df_tbl_of df = Ok df_tbl ->
        sort_values_desc argsort df "EV_EBITDA" = Ok df_bar ->
        e = FileNotFoundError).
Proof.
  intros Hout; apply dirname_without_separator in Hout.
  unfold main, makedirs, io_bind, lift.
  destruct (df_tbl_of df) as [df_tbl|e]; simpl.
  2:{ split; [reflexivity|]; exists e; split; [reflexivity|discriminate]. }
  destruct (sort_values_desc argsort df "EV_EBITDA") as [df_bar|e]; simpl.
  2:{ split; [reflexivity|]; exists e; split; [reflexivity|discriminate]. }
  rewrite Hout; simpl.
  split; [reflexivity|]; exists FileNotFoundError; split; reflexivity.
Qed.

Lemma no_directory_nothing_written_witness :
  snd (main argsort_stable two_rows "pitch_comps.pptx" "Deck" []) = [] /\
  exists e : error,
    fst (main argsort_stable two_rows "pitch_comps.pptx" "Deck" []) = Raise e /\
    (forall df_tbl df_bar : DataFrame,
        df_tbl_of two_rows = Ok df_tbl ->
        sort_values_desc argsort_stable two_rows "EV_EBITDA" = Ok df_bar ->
        e = FileNotFoundError).
Proof.
  apply (no_directory_nothing_written argsort_stable two_rows
           "pitch_comps.pptx" "Deck").
  reflexivity.
Defined.

(** ** Tables in general *)



(** ** The columns a [KeyError] names *)

Lemma getitem_absent (df : DataFrame) (name : string) :
  has_column df name = false -> getitem df name = Raise (KeyError [name]).
Proof.
  unfold has_column, getitem.
  destruct (lookup name (df_columns df)); [discriminate|reflexivity].
Qed.

Lemma getitem_setitem_other (df : DataFrame) (name x : string) (s : series) :
  String.eqb name x = false -> getitem (setitem df name s) x = getitem df x.
Proof.
  intros H; unfold getitem, setitem; cbn [df_columns].
  now rewrite lookup_replace_column, H.
Qed.

(** X17.  The columns are looked up where they are first used: without
    [EV_USD_m] the [KeyError] names it alone, else without [EBITDA_USD_m]
    that one alone, and else the error names all the columns of the table
    that are absent, in the order of the table; in each case the run has
    written nothing. *)
Theorem key_error_names_absent_columns (argsort : list float -> list nat)
  (df : DataFrame) (out title : string) :
  (has_column df "EV_USD_m" = false ->
   main argsort df out title [] = (Raise (KeyError ["EV_USD_m"]), [])) /\
  (has_column df "EV_USD_m" = true ->
   has_column df "EBITDA_USD_m" = false ->
   main argsort df out title [] = (Raise (KeyError ["EBITDA_USD_m"]), [])) /\
  (has_column df "EV_USD_m" = true ->
   has_column df "EBITDA_USD_m" = true ->
   forall (m : string) (rest : list string),
     filter (fun c => negb (has_column df c))
            ["Company"; "Ticker"; "Sector"; "EV_EBITDA"; "PE"; "Rev_Growth_%";
             "EBITDA_Margin_%"]
     = m :: rest ->
     main argsort df out title [] = (Raise (KeyError (m :: rest)), [])).
Proof.
  split; [|split].
  - intros H; apply main_stops_at_table_frame.
    unfold df_tbl_of; now rewrite (getitem_absent df "EV_USD_m" H).
  - intros H1 H2; apply main_stops_at_table_frame.
    destruct (getitem_has_column _ _ H1) as [ev_m Hev].
    unfold df_tbl_of; rewrite Hev; simpl.
    rewrite getitem_setitem_other by reflexivity.
    now rewrite (getitem_absent df "EBITDA_USD_m" H2).
  - intros H1 H2 m rest Hm; apply main_stops_at_table_frame.
    destruct (getitem_has_column _ _ H1) as [ev_m Hev].
    destruct (getitem_has_column _ _ H2) as [ebitda_m Heb].
    unfold df_tbl_of; rewrite Hev; simpl.
    rewrite getitem_setitem_other by reflexivity.
    rewrite Heb; simpl.
    unfold select.
    rewrite (filter_ext _ (fun n => negb (String.eqb "EBITDA_USD_bn" n
                                          || String.eqb "EV_USD_bn" n
                                          || has_column df n)))
      by (intros n; now rewrite has_column_df_disp).
    unfold cols; cbn [filter String.eqb Ascii.eqb Bool.eqb orb negb].
    cbn [filter] in Hm; rewrite Hm; reflexivity.
Qed.

Lemma key_error_names_absent_columns_witness :
  main argsort_stable
    {| df_len := 2;
       df_columns :=
         filter (fun c => negb (String.eqb (fst c) "PE")
                          && negb (String.eqb (fst c) "Ticker"))
                (df_columns two_rows) |}
    "output/pitch_comps.pptx" "Deck" []
  = (Raise (KeyError ["Ticker"; "PE"]), []).
Proof.
  apply (proj2 (proj2 (key_error_names_absent_columns argsort_stable
                         {| df_len := 2;
                            df_columns :=
                              filter
                                (fun c => negb (String.eqb (fst c) "PE")
                                          && negb (String.eqb (fst c) "Ticker"))
                                (df_columns two_rows) |}
                         "output/pitch_comps.pptx" "Deck")));
    reflexivity.
Defined.

(** ** What the comparables table shows *)

(** X6.  In the comparables table every column lists, row by row in input
    order, the cells of its source column in the format of its header; the
    two columns in billions list the cells in millions passed through
    [scale_to_bn]. *)
Theorem comps_table_shows_every_cell (df df_tbl : DataFrame) (t : table) :
  well_formed df ->
  df_tbl_of df = Ok df_tbl ->
  add_table "Comparable Companies Table" df_tbl
  = Ok (TableSlide "Comparable Companies Table" t) ->
  exists company ticker sector ev_m ebitda_m ev_ebitda pe growth margin,
    getitem df "Company" = Ok company /\
    getitem df "Ticker" = Ok ticker /\
    getitem df "Sector" = Ok sector /\
    getitem df "EV_USD_m" = Ok ev_m /\
    getitem df "EBITDA_USD_m" = Ok ebitda_m /\
    getitem df "EV_EBITDA" = Ok ev_ebitda /\
    getitem df "PE" = Ok pe /\
    getitem df "Rev_Growth_%" = Ok growth /\
    getitem df "EBITDA_Margin_%" = Ok margin /\
    map (fun row => nth 0 row "") (tbl_body t)
    = map (cell_text "Company") company /\
    map (fun row => nth 1 row "") (tbl_body t)
    = map (cell_text "Ticker") ticker /\
    map (fun row => nth 2 row "") (tbl_body t)
    = map (cell_text "Sector") sector /\
    map (fun row => nth 3 row "") (tbl_body t)
    = map (fun v => cell_text "EV (USD bn)" (scale_to_bn v)) ev_m /\
    map (fun row => nth 4 row "") (tbl_body t)
    = map (fun v => cell_text "EBITDA (USD bn)" (scale_to_bn v)) ebitda_m /\
    map (fun row => nth 5 row "") (tbl_body t)
    = map (cell_text "EV_EBITDA") ev_ebitda /\
    map (fun row => nth 6 row "") (tbl_body t)
    = map (cell_text "PE") pe /\
    map (fun row => nth 7 row "") (tbl_body t)
    = map (cell_text "Rev_Growth_%") growth /\
    map (fun row => nth 8 row "") (tbl_body t)
    = map (cell_text "EBITDA_Margin_%") margin.
Proof.
  intros Hwf Hdf Htab.
  destruct (df_tbl_of_columns _ _ Hdf)
    as (c1 & c2 & c3 & c4 & c5 & c6 & c7 & c8 & c9
        & H1 & H2 & H3 & H4 & H5 & H6 & H7 & H8 & H9 & ->).
  pose proof (getitem_length _ _ _ Hwf H1).
  pose proof (getitem_length _ _ _ Hwf H2).
  pose proof (getitem_length _ _ _ Hwf H3).
  pose proof (getitem_length _ _ _ Hwf H4).
  pose proof (getitem_length _ _ _ Hwf H5).
  pose proof (getitem_length _ _ _ Hwf H6).
  pose proof (getitem_length _ _ _ Hwf H7).
  pose proof (getitem_length _ _ _ Hwf H8).
  pose proof (getitem_length _ _ _ Hwf H9).
  exists c1, c2, c3, c4, c5, c6, c7, c8, c9.
  repeat (split; [assumption|]).
  repeat split.
  - apply (table_column _ _ _ 0 "Company" c1 Htab); [reflexivity|assumption].
  - apply (table_column _ _ _ 1 "Ticker" c2 Htab); [reflexivity|assumption].
  - apply (table_column _ _ _ 2 "Sector" c3 Htab); [reflexivity|assumption].
  - rewrite <- (map_map scale_to_bn (cell_text "EV (USD bn)")).
    apply (table_column _ _ _ 3 "EV (USD bn)" _ Htab); [reflexivity|].
    simpl; now rewrite length_map.
  - rewrite <- (map_map scale_to_bn (cell_text "EBITDA (USD bn)")).
    apply (table_column _ _ _ 4 "EBITDA (USD bn)" _ Htab); [reflexivity|].
    simpl; now rewrite length_map.
  - apply (table_column _ _ _ 5 "EV_EBITDA" c6 Htab); [reflexivity|assumption].
  - apply (table_column _ _ _ 6 "PE" c7 Htab); [reflexivity|assumption].
  - apply (table_column _ _ _ 7 "Rev_Growth_%" c8 Htab);
      [reflexivity|assumption].
  - apply (table_column _ _ _ 8 "EBITDA_Margin_%" c9 Htab);
      [reflexivity|assumption].
Qed.

Lemma comps_table_shows_every_cell_witness :
  exists company ticker sector ev_m ebitda_m ev_ebitda pe growth margin,
    getitem two_rows "Company" = Ok company /\
    getitem two_rows "Ticker" = Ok ticker /\
    getitem two_rows "Sector" = Ok sector /\
    getitem two_rows "EV_USD_m" = Ok ev_m /\
    getitem two_rows "EBITDA_USD_m" = Ok ebitda_m /\
    getitem two_rows "EV_EBITDA" = Ok ev_ebitda /\
    getitem two_rows "PE" = Ok pe /\
    getitem two_rows "Rev_Growth_%" = Ok growth /\
    getitem two_rows "EBITDA_Margin_%" = Ok margin /\
    map (fun row => nth 0 row "") (tbl_body two_rows_table)
    = map (cell_text "Company") company /\
    map (fun row => nth 1 row "") (tbl_body two_rows_table)
    = map (cell_text "Ticker") ticker /\
    map (fun row => nth 2 row "") (tbl_body two_rows_table)
    = map (cell_text "Sector") sector /\
    map (fun row => nth 3 row "") (tbl_body two_rows_table)
    = map (fun v => cell_text "EV (USD bn)" (scale_to_bn v)) ev_m /\
    map (fun row => nth 4 row "") (tbl_body two_rows_table)
    = map (fun v => cell_text "EBITDA (USD bn)" (scale_to_bn v)) ebitda_m /\
    map (fun row => nth 5 row "") (tbl_body two_rows_table)
    = map (cell_text "EV_EBITDA") ev_ebitda /\
    map (fun row => nth 6 row "") (tbl_body two_rows_table)
    = map (cell_text "PE") pe /\
    map (fun row => nth 7 row "") (tbl_body two_rows_table)
    = map (cell_text "Rev_Growth_%") growth /\
    map (fun row => nth 8 row "") (tbl_body two_rows_table)
    = map (cell_text "EBITDA_Margin_%") margin.
Proof.
  eapply (comps_table_shows_every_cell two_rows).
  - repeat constructor.
  - reflexivity.
  - reflexivity.
Defined.

Lemma lookup_of_getitem (df df' : DataFrame) (name : string) :
  getitem df name = getitem df' name ->
  lookup name (df_columns df) = lookup name (df_columns df').
Proof.
  unfold getitem.
  destruct (lookup name (df_columns df)), (lookup name (df_columns df'));
    simpl; congruence.
Qed.

Lemma mapM_ext_in {A B : Type} (f g : A -> result B) (l : list A) :
  (forall a, In a l -> f a = g a) -> mapM f l = mapM g l.
Proof.
  induction l as [|x l IH]; intros H; simpl; [reflexivity|].
  rewrite (H x (or_introl eq_refl)), IH; [reflexivity|].
  intros; apply H; now right.
Qed.

Lemma select_ext (a b : DataFrame) (names : list string) :
  df_len a = df_len b ->
  (forall n, In n names ->
             lookup n (df_columns a) = lookup n (df_columns b)) ->
  select a names = select b names.
Proof.
  intros Hlen Hl; unfold select.
  rewrite (filter_ext_in (fun n => negb (has_column a n))
                         (fun n => negb (has_column b n)))
    by (intros n Hn; unfold has_column; now rewrite (Hl n Hn)).
  rewrite (mapM_ext_in (fun n => s <- getitem a n ;; Ok (n, s))
                       (fun n => s <- getitem b n ;; Ok (n, s)))
    by (intros n Hn; unfold getitem; now rewrite (Hl n Hn)).
  now rewrite Hlen.
Qed.

(** X7.  The comparables table depends on the nine columns the run reads
    and on the number of rows only: the order of the columns in the data
    set, any further column, and a column already named [EV_USD_bn] or
    [EBITDA_USD_bn] make no difference, also to the exception raised. *)
Theorem table_frame_reads_nine_columns (df df' : DataFrame) :
  df_len df = df_len df' ->
  (forall c, In c required_columns -> getitem df c = getitem df' c) ->
  df_tbl_of df = df_tbl_of df'.
Proof.
  intros Hlen Hsame.
  assert (Hl : forall c, In c required_columns ->
                         lookup c (df_columns df) = lookup c (df_columns df')).
  { intros c Hc; apply lookup_of_getitem; auto. }
  unfold df_tbl_of.
  rewrite <- (Hsame "EV_USD_m") by (unfold required_columns; simpl; tauto).
  destruct (getitem df "EV_USD_m") as [ev_m|e]; simpl; [|reflexivity].
  rewrite !getitem_setitem_other by reflexivity.
  rewrite <- (Hsame "EBITDA_USD_m") by (unfold required_columns; simpl; tauto).
  destruct (getitem df "EBITDA_USD_m") as [ebitda_m|e]; simpl; [|reflexivity].
  rewrite (select_ext _
             (setitem (setitem df' "EV_USD_bn" (map scale_to_bn ev_m))
                      "EBITDA_USD_bn" (map scale_to_bn ebitda_m)) cols);
    [reflexivity|exact Hlen|].
  intros n Hn; unfold setitem; cbn [df_columns].
  rewrite !lookup_replace_column.
  unfold cols in Hn; simpl in Hn.
  repeat (destruct Hn as [<-|Hn];
          [first [reflexivity
                 |apply Hl; unfold required_columns; simpl; tauto]|]).
  contradiction.
Qed.

Lemma table_frame_reads_nine_columns_witness :
  df_tbl_of two_rows = df_tbl_of two_rows_reordered.
Proof.
  apply (table_frame_reads_nine_columns two_rows two_rows_reordered).
  - reflexivity.
  - intros c Hc; unfold required_columns in Hc; simpl in Hc.
    repeat (destruct Hc as [<-|Hc]; [reflexivity|]).
    contradiction.
Defined.

(** ** The statistics stay within the data *)









(** ** The summary slide *)

(** X10.  The summary slide is always a table of two rows, "EV/EBITDA" and
    "P/E" in this order, under the header Metric, Median (x), 25th (x),
    75th (x); each statistic is shown with one decimal and no suffix, since
    none of these headers matches a format rule. *)
Theorem summary_table_is_two_plain_rows (df : DataFrame) (s : slide) :
  add_val_summary df = Ok s ->
  exists (ev pe : series) (ev_s pe_s : list float),
    getitem df "EV_EBITDA" = Ok ev /\ valid_values ev = Ok ev_s /\
    getitem df "PE" = Ok pe /\ valid_values pe = Ok pe_s /\
    s = TableSlide "Valuation Summary (EV/EBITDA & P/E)"
          {| tbl_rows := 3; tbl_cols := 4;
             tbl_header := ["Metric"; "Median (x)"; "25th (x)"; "75th (x)"];
             tbl_body :=
               [["EV/EBITDA";
                 fmt1 (fst (fst (summary_stats ev_s)));
                 fmt1 (snd (fst (summary_stats ev_s)));
                 fmt1 (snd (summary_stats ev_s))];
                ["P/E";
                 fmt1 (fst (fst (summary_stats pe_s)));
                 fmt1 (snd (fst (summary_stats pe_s)));
                 fmt1 (snd (summary_stats pe_s))]] |}.
Proof.
  intros H.
  destruct (add_val_summary_slide _ _ H)
    as (ev & pe & ev_s & pe_s & Hev & Hevs & Hpe & Hpes).
  exists ev, pe, ev_s, pe_s; repeat (split; [assumption|]).
  rewrite (add_val_summary_table df ev pe ev_s pe_s Hev Hevs Hpe Hpes) in H.
  now inversion H.
Qed.

Lemma summary_table_is_two_plain_rows_witness :
  exists (ev pe : series) (ev_s pe_s : list float),
    getitem two_rows "EV_EBITDA" = Ok ev /\ valid_values ev = Ok ev_s /\
    getitem two_rows "PE" = Ok pe /\ valid_values pe = Ok pe_s /\
    TableSlide "Valuation Summary (EV/EBITDA & P/E)"
      {| tbl_rows := 3; tbl_cols := 4;
         tbl_header := ["Metric"; "Median (x)"; "25th (x)"; "75th (x)"];
         tbl_body := [["EV/EBITDA"; "15.0"; "12.5"; "17.5"];
                      ["P/E"; "30.0"; "25.0"; "35.0"]] |}
    = TableSlide "Valuation Summary (EV/EBITDA & P/E)"
          {| tbl_rows := 3; tbl_cols := 4;
             tbl_header := ["Metric"; "Median (x)"; "25th (x)"; "75th (x)"];
             tbl_body :=
               [["EV/EBITDA";
                 fmt1 (fst (fst (summary_stats ev_s)));
                 fmt1 (snd (fst (summary_stats ev_s)));
                 fmt1 (snd (summary_stats ev_s))];
                ["P/E";
                 fmt1 (fst (fst (summary_stats pe_s)));
                 fmt1 (snd (fst (summary_stats pe_s)));
                 fmt1 (snd (summary_stats pe_s))]] |}.
Proof.
  apply (summary_table_is_two_plain_rows two_rows); reflexivity.
Defined.

Lemma mapM_raises {A B : Type} (f : A -> result B) (l : list A) (e : error) :
  (forall a e', f a = Raise e' -> e' = e) ->
  (exists a e', In a l /\ f a = Raise e') ->
  mapM f l = Raise e.
Proof.
  intros Honly (a & e' & Ha & Hf).
  induction l as [|x l IH]; [contradiction|]; simpl.
  destruct (f x) as [b|ex] eqn:Hx; simpl.
  - destruct Ha as [->|Ha]; [congruence|].
    now rewrite (IH Ha).
  - now rewrite (Honly _ _ Hx).
Qed.

Lemma astype_float_text (s : series) (t : string) :
  In (PyObj (PyStr t)) s -> FloatLiteral.parse t = None ->
  astype_float s = Raise ValueError.
Proof.
  intros Hin Hparse; apply mapM_raises.
  - intros v e' H.
    destruct v as [f|[| |z|u]]; simpl in H; try discriminate.
    destruct (FloatLiteral.parse u); simpl in H; [discriminate|congruence].
  - exists (PyObj (PyStr t)), ValueError; split; [assumption|].
    simpl; now rewrite Hparse.
Qed.

(** X11.  The summary reads the columns [EV_EBITDA] and [PE] and nothing
    else of the data set.  Without [EV_EBITDA] it raises a [KeyError] for
    it; with text in [EV_EBITDA] that is no float literal it raises
    [ValueError], before it looks for [PE]; a frame that agrees on the two
    columns gives the same slide or the same exception. *)
Theorem summary_reads_two_columns :
  (forall df : DataFrame,
      has_column df "EV_EBITDA" = false ->
      add_val_summary df = Raise (KeyError ["EV_EBITDA"])) /\
  (forall (df : DataFrame) (ev : series) (t : string),
      getitem df "EV_EBITDA" = Ok ev ->
      In (PyObj (PyStr t)) ev -> FloatLiteral.parse t = None ->
      add_val_summary df = Raise ValueError) /\
  (forall (df : DataFrame) (ev : series) (ev_s : list float),
      getitem df "EV_EBITDA" = Ok ev -> valid_values ev = Ok ev_s ->
      has_column df "PE" = false ->
      add_val_summary df = Raise (KeyError ["PE"])) /\
  (forall df df' : DataFrame,
      getitem df "EV_EBITDA" = getitem df' "EV_EBITDA" ->
      getitem df "PE" = getitem df' "PE" ->
      add_val_summary df = add_val_summary df').
Proof.
  split; [|split; [|split]].
  - intros df H; unfold add_val_summary, getitem, has_column in *.
    destruct (lookup "EV_EBITDA" (df_columns df)); [discriminate|reflexivity].
  - intros df ev t Hev Hin Hparse; unfold add_val_summary, valid_values.
    rewrite Hev; simpl.
    now rewrite (astype_float_text ev t Hin Hparse).
  - intros df ev ev_s Hev Hevs Hpe; unfold add_val_summary.
    rewrite Hev; simpl; rewrite Hevs; simpl.
    unfold getitem, has_column in *.
    destruct (lookup "PE" (df_columns df)); [discriminate|reflexivity].
  - intros df df' Hev Hpe; unfold add_val_summary.
    now rewrite Hev, Hpe.
Qed.

Lemma summary_reads_two_columns_witness :
  add_val_summary (setitem two_rows "EV_EBITDA" [str_cell "12.5"; str_cell "N/A"])
  = Raise ValueError.
Proof.
  apply (proj1 (proj2 summary_reads_two_columns)
           (setitem two_rows "EV_EBITDA" [str_cell "12.5"; str_cell "N/A"])
           [str_cell "12.5"; str_cell "N/A"] "N/A").
  - reflexivity.
  - right; left; reflexivity.
  - reflexivity.
Defined.

(** Text that spells a number counts as a valid value of the summary. *)
Example summary_accepts_numeric_text :
  valid_values [str_cell "12.5"; str_cell " 7 "; str_cell "nan"; float_cell 3]
  = Ok [Fin (25 # 2); Fin 7; Fin 3].
Proof. reflexivity. Qed.

(** ** The takeaway without values *)

(** X12.  When neither multiple column has a value that is not missing
    (empty columns included) the first takeaway still appears, with "nan"
    in place of both medians. *)
Theorem takeaway_without_values (df : DataFrame) (evc pec : series)
  (ev pe : list float) :
  getitem df "EV_EBITDA" = Ok evc -> numeric_values evc = Ok ev ->
  getitem df "PE" = Ok pec -> numeric_values pec = Ok pe ->
  Forall (fun x => isnan x = true) ev ->
  Forall (fun x => isnan x = true) pe ->
  takeaway df = Ok "Median EV/EBITDA ≈ nanx; P/E ≈ nanx".
Proof.
  intros Hevc Hev Hpec Hpe Hnev Hnpe.
  assert (Hnone : forall l, Forall (fun x => isnan x = true) l ->
                            np_nanmedian l = NaN).
  { intros l Hl; unfold np_nanmedian, remove_nan.
    replace (filter (fun x => negb (isnan x)) l) with (@nil float);
      [reflexivity|].
    induction Hl as [|x l Hx _ IH]; simpl; [reflexivity|].
    now rewrite Hx. }
  rewrite (takeaway_text df evc pec ev pe Hevc Hev Hpec Hpe).
  now rewrite (Hnone ev Hnev), (Hnone pe Hnpe).
Qed.

Lemma takeaway_without_values_witness :
  takeaway two_rows_no_multiples = Ok "Median EV/EBITDA ≈ nanx; P/E ≈ nanx".
Proof.
  apply (takeaway_without_values two_rows_no_multiples
           [PyFloat NaN; PyFloat NaN] [PyFloat NaN; PyFloat NaN]
           [NaN; NaN] [NaN; NaN]);
    try reflexivity; repeat constructor.
Defined.

(** ** Small amounts in the table *)





(** ** The sorted frame *)

Lemma sorted_columns_shape (indexer : list nat)
  (cs sorted : list (string * series)) :
  mapM (fun c => s <- take (snd c) indexer ;; Ok (fst c, s)) cs = Ok sorted ->
  map fst sorted = map fst cs /\
  Forall (fun c => List.length (snd c) = List.length indexer) sorted.
Proof.
  revert sorted; induction cs as [|[n c] cs IH]; intros sorted H; simpl in H.
  - inversion H; subst; split; constructor.
  - destruct (take c indexer) as [c'|e] eqn:Hc; simpl in H; [|discriminate].
    destruct (mapM _ cs) as [rest|e] eqn:Hrest; simpl in H; [|discriminate].
    inversion H; subst; clear H.
    destruct (IH rest eq_refl) as [Hn Hl]; split; simpl.
    + now rewrite Hn.
    + constructor; [|assumption].
      simpl; now apply mapM_length in Hc.
Qed.

(** X14.  Sorting the frame moves whole rows: the sorted frame has the
    columns of the data set under the same names in the same order, as many
    rows, one cell per row in every column, and any two of its columns pair
    up the same cells as they do in the data set. *)
Theorem sort_values_keeps_rows_intact (argsort : list float -> list nat)
  (df df_bar : DataFrame) (by_ : string) :
  sorts_ascending argsort -> well_formed df ->
  sort_values_desc argsort df by_ = Ok df_bar ->
  column_names df_bar = column_names df /\
  df_len df_bar = df_len df /\
  well_formed df_bar /\
  forall (a b : string) (sa sb : series),
    getitem df a = Ok sa -> getitem df b = Ok sb ->
    exists sa' sb' : series,
      getitem df_bar a = Ok sa' /\ getitem df_bar b = Ok sb' /\
      Permutation (combine sa' sb') (combine sa sb).
Proof.
  intros Hsort Hwf Hbar.
  destruct (sort_values_desc_columns _ _ _ _ Hbar)
    as (k & items & Hk & Hitems & Hcols).
  destruct (nargsort_desc_spec argsort Hsort items) as [Hperm _].
  pose proof (getitem_length _ _ _ Hwf Hk) as Hlk.
  pose proof (mapM_length _ _ _ Hitems) as Hli.
  assert (Hlen : List.length (nargsort_desc argsort items) = df_len df).
  { rewrite (Permutation_length Hperm), length_seq; congruence. }
  unfold sort_values_desc in Hbar.
  rewrite Hk in Hbar; simpl in Hbar; rewrite Hitems in Hbar; simpl in Hbar.
  destruct (mapM _ (df_columns df)) as [sorted|e] eqn:Hs; simpl in Hbar;
    [|discriminate].
  destruct (sorted_columns_shape _ _ _ Hs) as [Hnames Hshape].
  inversion Hbar; subst df_bar; clear Hbar.
  split; [exact Hnames|].
  split; [exact Hlen|].
  split; [exact Hshape|].
  intros a b sa sb Ha Hb.
  destruct (Hcols _ _ Ha) as (sa' & Hta & Hga).
  destruct (Hcols _ _ Hb) as (sb' & Htb & Hgb).
  exists sa', sb'; split; [assumption|split; [assumption|]].
  pose proof (getitem_length _ _ _ Hwf Ha) as Hla.
  pose proof (getitem_length _ _ _ Hwf Hb) as Hlb.
  rewrite (take_nth _ _ _ (PyFloat NaN) Hta),
    (take_nth _ _ _ (PyFloat NaN) Htb), combine_map.
  rewrite (combine_by_position sa sb (PyFloat NaN) (PyFloat NaN))
    by congruence.
  apply Permutation_map.
  replace (List.length sa) with (List.length items) by congruence.
  exact Hperm.
Qed.

Lemma sort_values_keeps_rows_intact_witness :
  column_names
    {| df_len := 2;
       df_columns := map (fun c => (fst c, rev (snd c))) (df_columns two_rows) |}
  = column_names two_rows /\
  df_len
    {| df_len := 2;
       df_columns := map (fun c => (fst c, rev (snd c))) (df_columns two_rows) |}
  = df_len two_rows /\
  well_formed
    {| df_len := 2;
       df_columns := map (fun c => (fst c, rev (snd c))) (df_columns two_rows) |} /\
  forall (a b : string) (sa sb : series),
    getitem two_rows a = Ok sa -> getitem two_rows b = Ok sb ->
    exists sa' sb' : series,
      getitem
        {| df_len := 2;
           df_columns :=
             map (fun c => (fst c, rev (snd c))) (df_columns two_rows) |} a
      = Ok sa' /\
      getitem
        {| df_len := 2;
           df_columns :=
             map (fun c => (fst c, rev (snd c))) (df_columns two_rows) |} b
      = Ok sb' /\
      Permutation (combine sa' sb') (combine sa sb).
Proof.
  apply (sort_values_keeps_rows_intact argsort_stable two_rows _ "EV_EBITDA").
  - exact argsort_stable_sorts.
  - repeat constructor.
  - vm_compute; reflexivity.
Defined.

(** ** Where the files go *)










